(** * Article_Type_Classifier: a shallow embedding of [app.py]

    The script extracts the text of an uploaded PDF with pdfplumber, hands it
    to a zero-shot classifier, runs four substring heuristics over it and
    renders the outcome with Streamlit.

    Python strings are sequences of Unicode code points; they are modelled as
    lists of code points.  Calls into pdfplumber, the classifier and Streamlit
    are modelled by a state-and-exception monad over a [Platform] that
    supplies the libraries' operations. *)

From Stdlib Require Import List NArith Bool Ascii String Lia.
Import ListNotations.

Set Implicit Arguments.
Set Warnings "-register-all".

(** ** Python [str] *)

Definition char := N.
Definition str := list char.

(** An ASCII source literal as a [str]. *)
Definition lit (s : string) : str :=
  map N_of_ascii (list_ascii_of_string s).

(** [s.startswith(p)] *)
Fixpoint starts_with (p s : str) : bool :=
  match p, s with
  | [], _ => true
  | _ :: _, [] => false
  | a :: p', b :: s' => N.eqb a b && starts_with p' s'
  end.

(** [p in s] for two strings: [p] occurs in [s] as a contiguous run. *)
Fixpoint contains (p s : str) : bool :=
  starts_with p s ||
  match s with
  | [] => false
  | _ :: s' => contains p s'
  end.

(** What "occurs as a substring" means. *)
Definition occurs_in (p s : str) : Prop :=
  exists pre post, s = pre ++ p ++ post.

(** ** [str.lower()]

    CPython lowercases code point by code point with the full lower-case
    mapping of the Unicode database, except for GREEK CAPITAL LETTER SIGMA,
    whose image depends on the Final_Sigma context.  The three tables of the
    database that this uses are parameters. *)

Record UnicodeData := {
  to_lower_full : char -> list char;
  is_cased : char -> bool;
  is_case_ignorable : char -> bool
}.

Definition CAPITAL_SIGMA : char := 931%N.      (* U+03A3 *)
Definition SMALL_FINAL_SIGMA : char := 962%N.  (* U+03C2 *)
Definition SMALL_SIGMA : char := 963%N.        (* U+03C3 *)

Section Lower.
Variable U : UnicodeData.

(** The first code point of [s] that is not case-ignorable. *)
Fixpoint skip_case_ignorable (s : str) : option char :=
  match s with
  | [] => None
  | c :: s' => if is_case_ignorable U c then skip_case_ignorable s' else Some c
  end.

(** [before] is the text left of the sigma, nearest code point first;
    [after] is the text right of it. *)
Definition final_sigma (before after : str) : bool :=
  match skip_case_ignorable before with
  | None => false
  | Some c =>
      is_cased U c &&
      match skip_case_ignorable after with
      | None => true
      | Some c' => negb (is_cased U c')
      end
  end.

Definition handle_capital_sigma (before after : str) : char :=
  if final_sigma before after then SMALL_FINAL_SIGMA else SMALL_SIGMA.

Definition lower_char (before : str) (c : char) (after : str) : list char :=
  if N.eqb c CAPITAL_SIGMA then [handle_capital_sigma before after]
  else to_lower_full U c.

Fixpoint lower_from (before : str) (s : str) : str :=
  match s with
  | [] => []
  | c :: rest => lower_char before c rest ++ lower_from (c :: before) rest
  end.

Definition lower (s : str) : str := lower_from [] s.

(** ** [scholarly_indicators]

    The dictionary literal is an association list in insertion order, which
    is the order in which [dict.items()] yields it. *)

Definition scholarly_indicators (text : str) : list (str * bool) :=
  [ (lit "Contains Abstract", contains (lit "Abstract") text);
    (lit "Contains References",
       contains (lit "References") text || contains (lit "Bibliography") text);
    (lit "Contains DOI", contains (lit "doi") (lower text));
    (lit "Mentions Journal/Volume",
       contains (lit "Journal") text || contains (lit "Vol.") text) ].

End Lower.

(** [d[key]] on an association list with string keys. *)
Fixpoint str_eqb (a b : str) : bool :=
  match a, b with
  | [], [] => true
  | x :: a', y :: b' => N.eqb x y && str_eqb a' b'
  | _, _ => false
  end.

Fixpoint lookup (A : Type) (key : str) (d : list (str * A)) : option A :=
  match d with
  | [] => None
  | (k, v) :: d' => if str_eqb key k then Some v else lookup key d'
  end.

(** ** The libraries the script calls *)

Inductive outcome (E A : Type) : Type :=
| Return (a : A)
| Raise (e : E).
Arguments Return {E A} a.
Arguments Raise {E A} e.

(** The dictionary a zero-shot pipeline returns for one input sequence. *)
Record result (Score : Type) := {
  sequence : str;
  labels : list str;
  scores : list Score
}.

(** What the script takes from outside: the objects pdfplumber and the
    classifier hand out, the state [World] the libraries own, and their
    operations, each of which may raise.  [pdf_exit] is the [__exit__] of the
    object [pdfplumber.open] returns (its [__enter__] returns the object
    itself); [format_percent x] is [f"{x:.2%}"]. *)
Record Platform := {
  World : Type;
  Exn : Type;
  File : Type;
  Pdf : Type;
  Page : Type;
  Model : Type;
  Score : Type;
  IndexError : Exn;
  pdfplumber_open : File -> World -> outcome Exn Pdf * World;
  pdf_pages : Pdf -> World -> outcome Exn (list Page) * World;
  page_extract_text : Page -> World -> outcome Exn (option str) * World;
  pdf_exit : Pdf -> World -> outcome Exn unit * World;
  pipeline : str -> str -> World -> outcome Exn Model * World;
  model_call : Model -> str -> list str -> World -> outcome Exn (result Score) * World;
  format_percent : Score -> str;
  unicode : UnicodeData
}.

(** Elements the script puts on the page. *)
Inductive widget : Type :=
| Title (body : str)
| Markdown (body : str)
| FileUploader (label : str) (types : list str)
| Spinner (label : str)
| Subheader (body : str)
| Success (body : str)
| Warning (body : str)
| Write (body : str)
| Text (body : str)
| Expander (label : str) (children : list widget).

Section Effects.
Variable P : Platform.

Local Abbreviation exn := (Exn P).
Local Abbreviation res := (outcome (Exn P)).

(** One library call together with what it answered. *)
Inductive call : Type :=
| CallOpen (uploaded_file : File P) (r : res (Pdf P))
| CallPages (pdf : Pdf P) (r : res (list (Page P)))
| CallExtractText (page : Page P) (r : res (option str))
| CallExit (pdf : Pdf P) (r : res unit)
| CallPipeline (task model : str) (r : res (Model P))
| CallClassifier (classifier : Model P) (text : str) (candidates : list str)
                 (r : res (result (Score P))).

Definition error_of (A : Type) (r : res A) : option exn :=
  match r with
  | Return _ => None
  | Raise e => Some e
  end.

Definition call_error (c : call) : option exn :=
  match c with
  | CallOpen _ r => error_of r
  | CallPages _ r => error_of r
  | CallExtractText _ r => error_of r
  | CallExit _ r => error_of r
  | CallPipeline _ _ r => error_of r
  | CallClassifier _ _ _ r => error_of r
  end.

(** The error of the last call of the log that raised. *)
Fixpoint last_error (log : list call) : option exn :=
  match log with
  | [] => None
  | c :: log' =>
      match last_error log' with
      | Some e => Some e
      | None => call_error c
      end
  end.

(** State of one run of the script: the libraries' state, the
    [st.cache_resource] cache that outlives the run, the log of library
    calls made so far and the elements emitted so far. *)
Record state := {
  world : World P;
  cache : option (Model P);
  calls : list call;
  ui : list widget
}.

Definition M (A : Type) : Type := state -> res A * state.

Definition ret (A : Type) (a : A) : M A := fun s => (Return a, s).

Definition raise (A : Type) (e : exn) : M A := fun s => (Raise e, s).

Definition bind (A B : Type) (m : M A) (k : A -> M B) : M B :=
  fun s =>
    match m s with
    | (Return a, s') => k a s'
    | (Raise e, s') => (Raise e, s')
    end.

(** Calling into a library: the call acts on the libraries' state and is
    logged with its answer. *)
Definition invoke (A : Type) (op : World P -> res A * World P)
           (entry : res A -> call) : M A :=
  fun s =>
    let (r, w) := op (world s) in
    (r, {| world := w; cache := cache s;
           calls := calls s ++ [entry r]; ui := ui s |}).

(** [with cm as x: body], given the [__exit__] of [cm]: it runs on the way
    out whether or not [body] raised, it does not swallow the error of
    [body], and an error of its own takes that error's place. *)
Definition with_ (A : Type) (exit : M unit) (body : M A) : M A :=
  fun s =>
    match body s with
    | (Return a, s1) =>
        match exit s1 with
        | (Return _, s2) => (Return a, s2)
        | (Raise e, s2) => (Raise e, s2)
        end
    | (Raise e, s1) =>
        match exit s1 with
        | (Return _, s2) => (Raise e, s2)
        | (Raise e', s2) => (Raise e', s2)
        end
    end.

Definition emit (w : widget) : M unit :=
  fun s =>
    (Return tt, {| world := world s; cache := cache s;
                   calls := calls s; ui := ui s ++ [w] |}).

(** [with st.expander(label): body]: what [body] emits lands inside the
    expander. *)
Definition st_expander (A : Type) (label : str) (body : M A) : M A :=
  fun s =>
    let (r, s') := body {| world := world s; cache := cache s;
                           calls := calls s; ui := [] |} in
    (r, {| world := world s'; cache := cache s'; calls := calls s';
           ui := ui s ++ [Expander label (ui s')] |}).

(** [with st.spinner(label): body] *)
Definition st_spinner (A : Type) (label : str) (body : M A) : M A :=
  bind (emit (Spinner label)) (fun _ => body).

(** [xs[0]] *)
Definition index0 (A : Type) (xs : list A) : M A :=
  match xs with
  | x :: _ => ret x
  | [] => raise A (IndexError P)
  end.

(** [for x in xs: body x] *)
Fixpoint for_each (A : Type) (xs : list A) (body : A -> M unit) : M unit :=
  match xs with
  | [] => ret tt
  | x :: xs' => bind (body x) (fun _ => for_each xs' body)
  end.

(** Truth value of what [page.extract_text()] returns: [None] and the
    empty string are false. *)
Definition truthy (text : option str) : bool :=
  match text with
  | Some (_ :: _) => true
  | _ => false
  end.

Definition NEWLINE : char := 10%N.

End Effects.

Arguments index0 P [A] xs.
Arguments error_of {P} [A] r.
Arguments emit : clear implicits.
Arguments ret {P} [A] a.
Arguments raise : clear implicits.
Arguments CallOpen {P} uploaded_file r.
Arguments CallPages {P} pdf r.
Arguments CallExtractText {P} page r.
Arguments CallExit {P} pdf r.
Arguments CallPipeline {P} task model r.
Arguments CallClassifier {P} classifier text candidates r.

Declare Scope py_scope.
Delimit Scope py_scope with py.
Notation "x <- c ;; k" := (bind c (fun x => k))
  (at level 61, c at next level, right associativity) : py_scope.
Notation "c ;; k" := (bind c (fun _ => k))
  (at level 61, right associativity) : py_scope.

(** ** The script *)

Section Script.
Variable P : Platform.
Local Open Scope py_scope.

Local Abbreviation M := (M P).

(** [load_classifier] is the function that builds the pipeline, wrapped by
    the decorator [st.cache_resource].  What the decorator does with the
    call (when it runs the function, what it keeps, what it shows while the
    function runs) is Streamlit's business: the decorator is a parameter. *)
Definition load_classifier
           (cache_resource : M (Model P) -> M (Model P)) : M (Model P) :=
  let task := lit "zero-shot-classification" in
  let model := lit "facebook/bart-large-mnli" in
  cache_resource (invoke (pipeline P task model) (CallPipeline task model)).

(** The loop of [extract_text_from_pdf], with the local [full_text] as an
    accumulator. *)
Fixpoint extract_pages (pages : list (Page P)) (full_text : str) : M str :=
  match pages with
  | [] => ret full_text
  | page :: rest =>
      text <- invoke (page_extract_text P page) (CallExtractText page) ;;
      extract_pages rest
        (match text with
         | Some t => if truthy text then full_text ++ (t ++ [NEWLINE]) else full_text
         | None => full_text
         end)
  end.

Definition extract_text_from_pdf (uploaded_file : File P) : M str :=
  let full_text := [] in
  pdf <- invoke (pdfplumber_open P uploaded_file) (CallOpen uploaded_file) ;;
  full_text <- with_ (invoke (pdf_exit P pdf) (CallExit pdf))
                 (pages <- invoke (pdf_pages P pdf) (CallPages pdf) ;;
                  extract_pages pages full_text) ;;
  ret (firstn 4000 full_text).

Definition candidate_labels : list str :=
  [ lit "scholarly peer-reviewed academic article";
    lit "popular or non-academic article" ].

(** [classify_text]; the global [classifier] it reads is a parameter. *)
Definition classify_text (classifier : Model P) (text : str)
  : M (result (Score P)) :=
  let labels := candidate_labels in
  result <- invoke (model_call P classifier text labels)
              (CallClassifier classifier text labels) ;;
  ret result.

Definition CHECK_MARK : str := [9989%N].            (* U+2705 *)
Definition CROSS_MARK : str := [10060%N].           (* U+274C *)
Definition WARNING_SIGN : str := [9888%N; 65039%N]. (* U+26A0 U+FE0F *)
Definition PAGE_FACING_UP : str := [128196%N].      (* U+1F4C4 *)
Definition BAR_CHART : str := [128202%N].           (* U+1F4CA *)
Definition MAGNIFIER_LEFT : str := [128269%N].      (* U+1F50D *)
Definition MAGNIFIER_RIGHT : str := [128270%N].     (* U+1F50E *)

Definition scholarly_message (confidence : Score P) : str :=
  CHECK_MARK ++ lit " Scholarly / Peer-reviewed (Confidence: "
    ++ format_percent P confidence ++ lit ")".

Definition popular_message (confidence : Score P) : str :=
  WARNING_SIGN ++ lit " Popular / Non-academic (Confidence: "
    ++ format_percent P confidence ++ lit ")".

Definition evidence_line (key : str) (value : bool) : str :=
  let icon := if value then CHECK_MARK else CROSS_MARK in
  icon ++ lit " " ++ key.

(** The body of [if uploaded_file:]. *)
Definition handle_upload (classifier : Model P) (uploaded_file : File P)
  : M unit :=
  analysed <- st_spinner (lit "Analyzing document...")
    (extracted_text <- extract_text_from_pdf uploaded_file ;;
     result <- classify_text classifier extracted_text ;;
     let heuristics := scholarly_indicators (unicode P) extracted_text in
     ret (extracted_text, result, heuristics)) ;;
  let '(extracted_text, result, heuristics) := analysed in
  predicted_label <- index0 P (labels result) ;;
  confidence <- index0 P (scores result) ;;
  emit P (Subheader (BAR_CHART ++ lit " Classification Result")) ;;
  (if contains (lit "scholarly") predicted_label
   then emit P (Success (scholarly_message confidence))
   else emit P (Warning (popular_message confidence))) ;;
  emit P (Subheader (MAGNIFIER_LEFT ++ lit " Evidence Detected")) ;;
  for_each heuristics
    (fun kv => emit P (Write (evidence_line (fst kv) (snd kv)))) ;;
  st_expander (MAGNIFIER_RIGHT ++ lit " Show Extracted Text")
    (emit P (Text (firstn 2000 extracted_text))).

(** The whole script, run once; [uploaded_file] is what [st.file_uploader]
    returns, [None] while nothing has been uploaded. *)
Definition app (cache_resource : M (Model P) -> M (Model P))
           (uploaded_file : option (File P)) : M unit :=
  classifier <- load_classifier cache_resource ;;
  emit P (Title (PAGE_FACING_UP ++ lit " AI Scholarly Article Detector")) ;;
  emit P (Markdown (lit "Upload a PDF and this AI will determine if it is peer-reviewed or a popular source.")) ;;
  emit P (FileUploader (lit "Upload PDF") [lit "pdf"]) ;;
  match uploaded_file with
  | Some f => handle_upload classifier f
  | None => ret tt
  end.

End Script.

(** ** Vocabulary of the specification *)

Section Reading.
Variable P : Platform.

(** The texts pdfplumber extracts from [pages], asked page by page in page
    order. *)
Fixpoint texts_of_pages (pages : list (Page P)) (w : World P)
  : outcome (Exn P) (list (option str)) * World P :=
  match pages with
  | [] => (Return [], w)
  | page :: rest =>
      match page_extract_text P page w with
      | (Return t, w') =>
          match texts_of_pages rest w' with
          | (Return ts, w'') => (Return (t :: ts), w'')
          | (Raise e, w'') => (Raise e, w'')
          end
      | (Raise e, w') => (Raise e, w')
      end
  end.

(** The extracted texts that are present and not empty, in order. *)
Fixpoint nonempty_texts (ts : list (option str)) : list str :=
  match ts with
  | [] => []
  | Some (c :: t) :: ts' => (c :: t) :: nonempty_texts ts'
  | _ :: ts' => nonempty_texts ts'
  end.

(** Each text followed by a newline, concatenated. *)
Definition joined_lines (ts : list str) : str :=
  List.concat (map (fun t => t ++ [NEWLINE]) ts).

(** No pdfplumber operation changes the libraries' state. *)
Definition pdf_library_read_only : Prop :=
  (forall f w, snd (pdfplumber_open P f w) = w) /\
  (forall pdf w, snd (pdf_pages P pdf w) = w) /\
  (forall page w, snd (page_extract_text P page w) = w) /\
  (forall pdf w, snd (pdf_exit P pdf w) = w).

Definition is_exit (c : call P) : bool :=
  match c with
  | CallExit _ _ => true
  | _ => false
  end.

End Reading.

(** The two verdict elements. *)
Definition is_verdict (w : widget) : bool :=
  match w with
  | Success _ | Warning _ => true
  | _ => false
  end.

Definition is_write (w : widget) : bool :=
  match w with
  | Write _ => true
  | _ => false
  end.

(** ASCII letter case. *)
Definition ascii_lower (c : char) : char :=
  if (N.leb 65 c && N.leb c 90)%bool then (c + 32)%N else c.

Definition is_ascii (c : char) : Prop := (c < 128)%N.

(** The Basic Latin block is lowercased letter by letter. *)
Definition basic_latin_lowercase (U : UnicodeData) : Prop :=
  forall c, is_ascii c -> to_lower_full U c = [ascii_lower c].

(** ** A small in-memory platform

    Used to run the script on concrete uploads. *)

Module Sample.

Inductive error : Type :=
| ListIndexOutOfRange
| NotAPdf
| DamagedPage
| ModelUnavailable.

Inductive page : Type :=
| PageText (t : option str)
| PageDamaged.

Record file := {
  is_pdf : bool;
  file_pages : list page
}.

Definition open (f : file) (w : nat) : outcome error (list page) * nat :=
  if is_pdf f then (Return (file_pages f), w) else (Raise NotAPdf, w).

Definition pages (pdf : list page) (w : nat) : outcome error (list page) * nat :=
  (Return pdf, w).

Definition extract_text (p : page) (w : nat) : outcome error (option str) * nat :=
  match p with
  | PageText t => (Return t, w)
  | PageDamaged => (Raise DamagedPage, w)
  end.

Definition exit (pdf : list page) (w : nat) : outcome error unit * nat :=
  (Return tt, w).

(** Loading a model is counted in the libraries' state. *)
Definition load (task model : str) (w : nat) : outcome error unit * nat :=
  (Return tt, S w).

(** Scores are in hundredths of a percent.  A text is ranked scholarly
    first when it has an abstract. *)
Definition classify (_ : unit) (text : str) (candidates : list str) (w : nat)
  : outcome error (result N) * nat :=
  match candidates with
  | [] => (Raise ModelUnavailable, w)
  | _ :: _ =>
      (Return {| sequence := text;
                 labels := if contains (lit "Abstract") text
                           then candidates else rev candidates;
                 scores := [9150%N; 850%N] |}, w)
  end.

Definition two_digits (n : N) : str :=
  [(48 + n / 10)%N; (48 + N.modulo n 10)%N].

Definition percent (hundredths : N) : str :=
  two_digits (hundredths / 100) ++ lit "." ++
  two_digits (N.modulo hundredths 100) ++ lit "%".

Definition basic_latin : UnicodeData := {|
  to_lower_full := fun c => [ascii_lower c];
  is_cased := fun c =>
    ((N.leb 65 c && N.leb c 90) || (N.leb 97 c && N.leb c 122))%bool;
  is_case_ignorable := fun c =>
    existsb (N.eqb c) [39%N; 46%N; 58%N; 94%N; 96%N]
|}.

Definition platform : Platform := {|
  World := nat;
  Exn := error;
  File := file;
  Pdf := list page;
  Page := page;
  Model := unit;
  Score := N;
  IndexError := ListIndexOutOfRange;
  pdfplumber_open := open;
  pdf_pages := pages;
  page_extract_text := extract_text;
  pdf_exit := exit;
  pipeline := load;
  model_call := classify;
  format_percent := percent;
  unicode := basic_latin
|}.

Definition start : state platform :=
  @Build_state platform 0 None [] [].

(** A two-page article with an empty page in between. *)
Definition article : file := {|
  is_pdf := true;
  file_pages :=
    [ PageText (Some (lit "Abstract. We study Vol. 3 of the Journal."));
      PageText None;
      PageText (Some []);
      PageText (Some (lit "References: DOI 10.1000/1")) ]
|}.

Definition broken : file := {|
  is_pdf := true;
  file_pages := [ PageText (Some (lit "cover")); PageDamaged;
                  PageText (Some (lit "never read")) ]
|}.

Definition not_a_pdf : file := {| is_pdf := false; file_pages := [] |}.

End Sample.

(** ** Lowercasing up to the choice of sigma

    The only code points whose image under [lower] depends on their
    neighbours are the two small sigmas. *)

Definition small_sigma (c : char) : Prop :=
  c = SMALL_FINAL_SIGMA \/ c = SMALL_SIGMA.

Definition same_but_sigma (a b : char) : Prop :=
  a = b \/ (small_sigma a /\ small_sigma b).

(** ** Reading runs *)

Section Runs.
Variable P : Platform.

(** A state that holds the libraries' state [w] and nothing else. *)
Definition bare (w : World P) : state P :=
  {| world := w; cache := None; calls := []; ui := [] |}.

(** [s] with the libraries' state of [s'] and the calls of [s'] appended. *)
Definition frame (s s' : state P) : state P :=
  {| world := world s'; cache := cache s;
     calls := calls s ++ calls s'; ui := ui s |}.

(** A computation that depends on the libraries' state only, and whose only
    effects are on the libraries' state and the call log. *)
Definition framed (A : Type) (m : M P A) : Prop :=
  forall s, m s = (fst (m (bare (world s))), frame s (snd (m (bare (world s))))).

Definition call_ok (c : call P) : Prop := call_error c = None.

(** Once a call has raised, at most the [__exit__] of the [with] statement
    follows. *)
Fixpoint stops_at_error (log : list (call P)) : bool :=
  match log with
  | [] => true
  | c :: log' =>
      match call_error c with
      | Some _ => forallb (@is_exit P) log' && Nat.leb (List.length log') 1
      | None => stops_at_error log'
      end
  end.

End Runs.

Arguments bare {P} w.

Definition is_expander (w : widget) : bool :=
  match w with
  | Expander _ _ => true
  | _ => false
  end.


(** ** Further vocabulary *)

(** The log entry of a page whose text was extracted. *)
Definition extracted (P : Platform) (pt : Page P * option str) : call P :=
  CallExtractText (fst pt) (Return (snd pt)).

(** A stand-in for [st.cache_resource] that runs the function on every
    call and keeps nothing. *)
Definition uncached (P : Platform) (body : M P (Model P)) : M P (Model P) :=
  body.

(** ** Platforms that misbehave *)

Module Faulty.

(** A classifier that answers with no label and no score. *)
Definition mute (_ : unit) (text : str) (candidates : list str) (w : nat)
  : outcome Sample.error (result N) * nat :=
  (Return {| sequence := text; labels := []; scores := [] |}, w).

Definition no_labels : Platform := {|
  World := nat;
  Exn := Sample.error;
  File := Sample.file;
  Pdf := list Sample.page;
  Page := Sample.page;
  Model := unit;
  Score := N;
  IndexError := Sample.ListIndexOutOfRange;
  pdfplumber_open := Sample.open;
  pdf_pages := Sample.pages;
  page_extract_text := Sample.extract_text;
  pdf_exit := Sample.exit;
  pipeline := Sample.load;
  model_call := mute;
  format_percent := Sample.percent;
  unicode := Sample.basic_latin
|}.

(** The model cannot be fetched; every attempt is counted. *)
Definition unreachable (task model : str) (w : nat)
  : outcome Sample.error unit * nat :=
  (Raise Sample.ModelUnavailable, S w).

Definition offline : Platform := {|
  World := nat;
  Exn := Sample.error;
  File := Sample.file;
  Pdf := list Sample.page;
  Page := Sample.page;
  Model := unit;
  Score := N;
  IndexError := Sample.ListIndexOutOfRange;
  pdfplumber_open := Sample.open;
  pdf_pages := Sample.pages;
  page_extract_text := Sample.extract_text;
  pdf_exit := Sample.exit;
  pipeline := unreachable;
  model_call := Sample.classify;
  format_percent := Sample.percent;
  unicode := Sample.basic_latin
|}.

(** pdfplumber reads from the uploaded stream.  Here the libraries' state
    is the read position of that stream: opening the upload reads its
    header, and extracting a page reads on to the end of that page's text. *)
Definition read_header (f : Sample.file) (position : nat)
  : outcome Sample.error (list Sample.page) * nat :=
  if Sample.is_pdf f then (Return (Sample.file_pages f), position + 8)
  else (Raise Sample.NotAPdf, position + 8).

Definition read_page (p : Sample.page) (position : nat)
  : outcome Sample.error (option str) * nat :=
  match p with
  | Sample.PageText (Some t) => (Return (Some t), position + List.length t)
  | Sample.PageText None => (Return None, position)
  | Sample.PageDamaged => (Raise Sample.DamagedPage, position)
  end.

Definition streaming : Platform := {|
  World := nat;
  Exn := Sample.error;
  File := Sample.file;
  Pdf := list Sample.page;
  Page := Sample.page;
  Model := unit;
  Score := N;
  IndexError := Sample.ListIndexOutOfRange;
  pdfplumber_open := read_header;
  pdf_pages := Sample.pages;
  page_extract_text := read_page;
  pdf_exit := Sample.exit;
  pipeline := Sample.load;
  model_call := Sample.classify;
  format_percent := Sample.percent;
  unicode := Sample.basic_latin
|}.

(** A scanned document: two pages, no text layer. *)
Definition scan : Sample.file := {|
  Sample.is_pdf := true;
  Sample.file_pages := [ Sample.PageText None; Sample.PageText (Some []) ]
|}.

End Faulty.

(** * Substring search *)

Lemma starts_with_spec (p s : str) :
  starts_with p s = true <-> exists post, s = p ++ post.
Proof.
  revert s; induction p as [|a p IH]; intros s; simpl.
  - split; [intros _; now exists s | reflexivity].
  - destruct s as [|b s].
    + split; [discriminate | intros [post H]; discriminate].
    + rewrite andb_true_iff, N.eqb_eq, IH. split.
      * intros [-> [post ->]]. now exists post.
      * intros [post H]. injection H as -> ->. split; [reflexivity | now exists post].
Qed.

Lemma contains_spec (p s : str) :
  contains p s = true <-> occurs_in p s.
Proof.
  unfold occurs_in. induction s as [|c s IH]; simpl.
  - rewrite orb_false_r, starts_with_spec. split.
    + intros [post H]. now exists [], post.
    + intros [pre [post H]]. symmetry in H.
      apply app_eq_nil in H as [-> H]. exists post. now rewrite H.
  - rewrite orb_true_iff, starts_with_spec, IH. split.
    + intros [[post H] | [pre [post H]]].
      * now exists [], post.
      * exists (c :: pre), post. simpl. now rewrite H.
    + intros [[|c' pre] [post H]].
      * left. now exists post.
      * right. injection H as _ H. now exists pre, post.
Qed.

Lemma occurs_in_app_r (p s t : str) : occurs_in p s -> occurs_in p (s ++ t).
Proof.
  intros [pre [post ->]]. exists pre, (post ++ t).
  now rewrite <- !app_assoc.
Qed.

Lemma occurs_in_app_l (p s t : str) : occurs_in p s -> occurs_in p (t ++ s).
Proof.
  intros [pre [post ->]]. exists (t ++ pre), post.
  now rewrite <- !app_assoc.
Qed.

Lemma contains_app_r (p s t : str) :
  contains p s = true -> contains p (s ++ t) = true.
Proof. rewrite !contains_spec. apply occurs_in_app_r. Qed.

Lemma contains_app_l (p s t : str) :
  contains p s = true -> contains p (t ++ s) = true.
Proof. rewrite !contains_spec. apply occurs_in_app_l. Qed.

Lemma str_eqb_eq (a b : str) : str_eqb a b = true <-> a = b.
Proof.
  revert b; induction a as [|x a IH]; intros [|y b]; simpl;
    try (split; [discriminate | discriminate]); try tauto.
  rewrite andb_true_iff, N.eqb_eq, IH. split.
  - now intros [-> ->].
  - intros H. now injection H.
Qed.

(** * Lowercasing *)

Section LowerFacts.
Variable U : UnicodeData.

Lemma lower_char_sim (b1 b2 a1 a2 : str) (c : char) :
  Forall2 same_but_sigma (lower_char U b1 c a1) (lower_char U b2 c a2).
Proof.
  unfold lower_char. destruct (N.eqb c CAPITAL_SIGMA).
  - constructor; [|constructor]. right.
    unfold handle_capital_sigma, small_sigma.
    destruct (final_sigma U b1 a1), (final_sigma U b2 a2); tauto.
  - induction (to_lower_full U c); constructor; [now left | assumption].
Qed.

Lemma lower_from_sim (s b1 b2 : str) :
  Forall2 same_but_sigma (lower_from U b1 s) (lower_from U b2 s).
Proof.
  revert b1 b2; induction s as [|c s IH]; intros b1 b2; simpl.
  - constructor.
  - apply Forall2_app; [apply lower_char_sim | apply IH].
Qed.

Lemma lower_from_app (s t b : str) :
  exists x, lower_from U b (s ++ t) = x ++ lower_from U (rev s ++ b) t /\
            Forall2 same_but_sigma (lower_from U b s) x.
Proof.
  revert b; induction s as [|c s IH]; intros b; simpl.
  - exists []. split; [reflexivity | constructor].
  - destruct (IH (c :: b)) as [x [Hx Hsim]].
    exists (lower_char U b c (s ++ t) ++ x). split.
    + rewrite Hx, <- !app_assoc. reflexivity.
    + apply Forall2_app; [apply lower_char_sim | exact Hsim].
Qed.

Lemma same_but_sigma_plain (p p' : str) :
  Forall (fun c => ~ small_sigma c) p ->
  Forall2 same_but_sigma p p' -> p = p'.
Proof.
  intros Hp H. induction H as [|a b p p' Hab _ IH]; [reflexivity|].
  inversion Hp as [|? ? Ha Hp']; subst.
  destruct Hab as [-> | [Hs _]]; [|contradiction].
  now rewrite IH.
Qed.

Lemma occurs_in_sim (p l l' : str) :
  Forall (fun c => ~ small_sigma c) p ->
  Forall2 same_but_sigma l l' ->
  occurs_in p l -> occurs_in p l'.
Proof.
  intros Hp Hsim [pre [post ->]].
  apply Forall2_app_inv_l in Hsim as [pre' [rest [_ [Hrest ->]]]].
  apply Forall2_app_inv_l in Hrest as [p' [post' [Hpp [_ ->]]]].
  apply same_but_sigma_plain in Hpp as <-; [|exact Hp].
  now exists pre', post'.
Qed.

Lemma doi_plain : Forall (fun c => ~ small_sigma c) (lit "doi").
Proof.
  repeat constructor; intros [H | H]; discriminate H.
Qed.

Lemma doi_app_r (s t : str) :
  contains (lit "doi") (lower U s) = true ->
  contains (lit "doi") (lower U (s ++ t)) = true.
Proof.
  rewrite !contains_spec. unfold lower. intros H.
  destruct (lower_from_app s t []) as [x [-> Hsim]].
  apply occurs_in_app_r. now apply (occurs_in_sim doi_plain Hsim).
Qed.

Lemma doi_app_l (s t : str) :
  contains (lit "doi") (lower U s) = true ->
  contains (lit "doi") (lower U (t ++ s)) = true.
Proof.
  rewrite !contains_spec. unfold lower. intros H.
  destruct (lower_from_app t s []) as [x [-> _]].
  apply occurs_in_app_l.
  now apply (occurs_in_sim doi_plain (lower_from_sim s [] (rev t ++ []))).
Qed.

End LowerFacts.

Section Indicators.
Variable U : UnicodeData.

Lemma lower_from_ascii (s b : str) :
  basic_latin_lowercase U -> Forall is_ascii s ->
  lower_from U b s = map ascii_lower s.
Proof.
  intros HU Hs. revert b; induction Hs as [|c s Hc _ IH]; intros b; simpl.
  - reflexivity.
  - unfold lower_char. replace (N.eqb c CAPITAL_SIGMA) with false.
    + rewrite (HU c Hc), IH. reflexivity.
    + symmetry. apply N.eqb_neq. unfold is_ascii, CAPITAL_SIGMA in *. lia.
Qed.

Lemma is_ascii_check (s : str) :
  forallb (fun c => N.ltb c 128) s = true -> Forall is_ascii s.
Proof.
  rewrite forallb_forall, Forall_forall. intros H c Hc.
  apply N.ltb_lt. now apply H.
Qed.

Lemma doi_any_case (pre post : str) (d o i : char) :
  basic_latin_lowercase U ->
  In d (lit "dD") -> In o (lit "oO") -> In i (lit "iI") ->
  contains (lit "doi") (lower U (pre ++ [d; o; i] ++ post)) = true.
Proof.
  intros HU Hd Ho Hi. apply contains_spec. unfold lower.
  destruct (lower_from_app U pre ([d; o; i] ++ post) []) as [x [-> _]].
  exists x, (lower_from U (i :: o :: d :: rev pre ++ []) post).
  f_equal. simpl. unfold lower_char.
  assert (Hlow : forall c, In c (lit "dDoOiI") ->
            N.eqb c CAPITAL_SIGMA = false /\ to_lower_full U c = [ascii_lower c]).
  { intros c Hc. assert (is_ascii c).
    { unfold is_ascii. simpl in Hc. intuition (subst; reflexivity). }
    split; [|now apply HU].
    apply N.eqb_neq. unfold is_ascii, CAPITAL_SIGMA in *. lia. }
  destruct (Hlow d) as [-> ->]; [simpl in *; tauto|].
  destruct (Hlow o) as [-> ->]; [simpl in *; tauto|].
  destruct (Hlow i) as [-> ->]; [simpl in *; tauto|].
  simpl in Hd, Ho, Hi.
  destruct Hd as [<- | [<- | []]], Ho as [<- | [<- | []]], Hi as [<- | [<- | []]];
    reflexivity.
Qed.

(** C2: [scholarly_indicators] returns exactly the four keys, in the order
    of the dictionary literal; "Contains Abstract" holds iff "Abstract"
    occurs in the text, "Contains References" iff "References" or
    "Bibliography" occurs in it, "Contains DOI" iff "doi" occurs in the
    lowercased text, and "Mentions Journal/Volume" iff "Journal" or "Vol."
    occurs in the text. *)
Theorem scholarly_indicators_spec (text : str) :
  exists abstract references doi journal : bool,
    scholarly_indicators U text =
      [ (lit "Contains Abstract", abstract);
        (lit "Contains References", references);
        (lit "Contains DOI", doi);
        (lit "Mentions Journal/Volume", journal) ] /\
    (abstract = true <-> occurs_in (lit "Abstract") text) /\
    (references = true <->
       occurs_in (lit "References") text \/ occurs_in (lit "Bibliography") text) /\
    (doi = true <-> occurs_in (lit "doi") (lower U text)) /\
    (journal = true <->
       occurs_in (lit "Journal") text \/ occurs_in (lit "Vol.") text).
Proof.
  do 4 eexists. split; [reflexivity|].
  rewrite !orb_true_iff, !contains_spec. tauto.
Qed.

(** C8: an indicator that is true on [s] is true on [s ++ t] and on
    [t ++ s], for each of the four keys. *)
Theorem indicators_monotone (key s t : str) :
  lookup key (scholarly_indicators U s) = Some true ->
  lookup key (scholarly_indicators U (s ++ t)) = Some true /\
  lookup key (scholarly_indicators U (t ++ s)) = Some true.
Proof.
  unfold scholarly_indicators. cbn [lookup].
  repeat match goal with
         | |- context [str_eqb key ?k] => destruct (str_eqb key k)
         end;
    try discriminate; intros H; injection H as H.
  - now rewrite (contains_app_r _ _ t H), (contains_app_l _ _ t H).
  - apply orb_true_iff in H as [H | H].
    + now rewrite (contains_app_r _ _ t H), (contains_app_l _ _ t H).
    + rewrite (contains_app_r _ _ t H), (contains_app_l _ _ t H).
      now rewrite !orb_true_r.
  - now rewrite (@doi_app_r U s t H), (@doi_app_l U s t H).
  - apply orb_true_iff in H as [H | H].
    + now rewrite (contains_app_r _ _ t H), (contains_app_l _ _ t H).
    + rewrite (contains_app_r _ _ t H), (contains_app_l _ _ t H).
      now rewrite !orb_true_r.
Qed.

(** C9: whatever surrounds it, any of the eight casings of "doi" makes
    "Contains DOI" true, and on ASCII texts that differ in letter case only
    it takes the same value; the other three indicators look for the
    capitalised words: all are false on "abstract references journal vol."
    and true on "Abstract References Journal Vol.", where "Contains DOI" is
    false both times. *)
Theorem doi_case_insensitive_others_not :
  basic_latin_lowercase U ->
  (forall pre post d o i,
      In d (lit "dD") -> In o (lit "oO") -> In i (lit "iI") ->
      lookup (lit "Contains DOI")
        (scholarly_indicators U (pre ++ [d; o; i] ++ post)) = Some true) /\
  (forall s s',
      Forall is_ascii s -> Forall is_ascii s' ->
      map ascii_lower s = map ascii_lower s' ->
      lookup (lit "Contains DOI") (scholarly_indicators U s) =
      lookup (lit "Contains DOI") (scholarly_indicators U s')) /\
  scholarly_indicators U (lit "abstract references journal vol.") =
    [ (lit "Contains Abstract", false);
      (lit "Contains References", false);
      (lit "Contains DOI", false);
      (lit "Mentions Journal/Volume", false) ] /\
  scholarly_indicators U (lit "Abstract References Journal Vol.") =
    [ (lit "Contains Abstract", true);
      (lit "Contains References", true);
      (lit "Contains DOI", false);
      (lit "Mentions Journal/Volume", true) ].
Proof.
  intros HU. repeat split.
  - intros pre post d o i Hd Ho Hi.
    unfold scholarly_indicators.
    rewrite (doi_any_case pre post HU Hd Ho Hi). reflexivity.
  - intros s s' Hs Hs' Heq. unfold scholarly_indicators, lower.
    rewrite (lower_from_ascii [] HU Hs), (lower_from_ascii [] HU Hs'), Heq.
    reflexivity.
  - unfold scholarly_indicators, lower.
    rewrite (lower_from_ascii [] HU); [reflexivity|].
    now apply is_ascii_check.
  - unfold scholarly_indicators, lower.
    rewrite (lower_from_ascii [] HU); [reflexivity|].
    now apply is_ascii_check.
Qed.

End Indicators.

Lemma indicators_monotone_witness :
  lookup (lit "Contains DOI")
    (scholarly_indicators Sample.basic_latin (lit "DOI 10.1000/1")) = Some true /\
  lookup (lit "Contains DOI")
    (scholarly_indicators Sample.basic_latin (lit "DOI 10.1000/1" ++ lit " (2019)"))
    = Some true /\
  lookup (lit "Contains DOI")
    (scholarly_indicators Sample.basic_latin (lit " (2019)" ++ lit "DOI 10.1000/1"))
    = Some true.
Proof.
  split; [reflexivity|].
  apply (@indicators_monotone Sample.basic_latin (lit "Contains DOI")
           (lit "DOI 10.1000/1") (lit " (2019)")).
  reflexivity.
Defined.

Lemma doi_case_insensitive_witness :
  basic_latin_lowercase Sample.basic_latin /\
  lookup (lit "Contains DOI")
    (scholarly_indicators Sample.basic_latin (lit "see " ++ lit "DoI" ++ lit ":10"))
    = Some true.
Proof.
  assert (H : basic_latin_lowercase Sample.basic_latin)
    by (intros c _; reflexivity).
  split; [exact H|].
  apply (proj1 (@doi_case_insensitive_others_not Sample.basic_latin H));
    simpl; tauto.
Defined.

(** * Runs of the script *)

Section RunFacts.
Variable P : Platform.
Local Open Scope py_scope.

Lemma last_error_app (a b : list (call P)) :
  last_error (a ++ b) =
  match last_error b with
  | Some e => Some e
  | None => last_error a
  end.
Proof.
  induction a as [|c a IH]; simpl.
  - now destruct (last_error b).
  - rewrite IH. now destruct (last_error b).
Qed.

Lemma last_error_ok (log : list (call P)) :
  Forall (@call_ok P) log -> last_error log = None.
Proof.
  induction 1 as [|c log Hc _ IH]; simpl; [reflexivity|].
  now rewrite IH.
Qed.


Lemma stops_at_error_app (a b : list (call P)) :
  Forall (@call_ok P) a -> stops_at_error (a ++ b) = stops_at_error b.
Proof.
  induction 1 as [|c a Hc _ IH]; simpl; [reflexivity|].
  now rewrite Hc.
Qed.

Lemma stops_at_error_ok (a : list (call P)) :
  Forall (@call_ok P) a -> stops_at_error a = true.
Proof.
  intros H. rewrite <- (app_nil_r a). now rewrite stops_at_error_app.
Qed.

(** The loop asks the library for each page in turn and stops at the first
    page whose extraction raises. *)
Lemma extract_pages_run (pages : list (Page P)) (acc : str) (s : state P) :
  exists new,
    snd (extract_pages pages acc s) =
      {| world := snd (texts_of_pages P pages (world s)); cache := cache s;
         calls := calls s ++ new; ui := ui s |} /\
    ((exists ts,
         fst (texts_of_pages P pages (world s)) = Return ts /\
         fst (extract_pages pages acc s) =
           Return (acc ++ joined_lines (nonempty_texts ts)) /\
         Forall (@call_ok P) new)
     \/
     (exists e oks c,
         fst (texts_of_pages P pages (world s)) = Raise e /\
         fst (extract_pages pages acc s) = Raise e /\
         new = oks ++ [c] /\ Forall (@call_ok P) oks /\
         call_error c = Some e)).
Proof.
  revert acc s; induction pages as [|page rest IH]; intros acc s.
  - exists []. simpl. split.
    + destruct s; simpl. now rewrite app_nil_r.
    + left. exists []. unfold joined_lines. simpl.
      rewrite app_nil_r. repeat split. constructor.
  - cbn [extract_pages texts_of_pages]. unfold bind, invoke.
    destruct (page_extract_text P page (world s)) as [[t | e] w] eqn:Hpage.
    + match goal with
      | |- context [extract_pages rest ?a ?st] =>
          destruct (IH a st) as [new [Hsnd Hcases]]; set (acc' := a) in *
      end.
      cbn [world cache calls ui] in Hsnd, Hcases.
      exists (CallExtractText page (Return t) :: new). split.
      * rewrite Hsnd. rewrite <- app_assoc.
        destruct (texts_of_pages P rest w) as [[ts | e] w']; reflexivity.
      * destruct Hcases as [[ts [Hts [Hres Hok]]] | [e [oks [c [Hts [Hres [Hnew [Hok Hc]]]]]]]].
        -- left. exists (t :: ts).
           destruct (texts_of_pages P rest w) as [[ts' | e'] w']; simpl in Hts;
             [injection Hts as -> | discriminate].
           split; [reflexivity|]. split.
           ++ rewrite Hres. subst acc'. f_equal.
              destruct t as [[|c t]|]; simpl; try reflexivity.
              unfold joined_lines. simpl. rewrite <- app_assoc. reflexivity.
           ++ constructor; [reflexivity | exact Hok].
        -- right. exists e, (CallExtractText page (Return t) :: oks), c.
           destruct (texts_of_pages P rest w) as [[ts' | e'] w']; simpl in Hts;
             [discriminate | injection Hts as ->].
           repeat split; try assumption.
           ++ now rewrite Hnew.
           ++ constructor; [reflexivity | exact Hok].
    + exists [CallExtractText page (Raise e)]. split; [reflexivity|].
      right. exists e, [], (CallExtractText page (Raise e)).
      repeat split. constructor.
Qed.

End RunFacts.

Section ExtractFacts.
Variable P : Platform.
Local Open Scope py_scope.

Lemma frame_frame (s s0 x : state P) :
  frame s (frame s0 x) = frame (frame s s0) x.
Proof. unfold frame; simpl. now rewrite app_assoc. Qed.

Lemma framed_ret (A : Type) (a : A) : framed (ret (P:=P) a).
Proof.
  intros s. unfold ret, frame, bare; simpl. destruct s; simpl.
  now rewrite app_nil_r.
Qed.

Lemma framed_invoke (A : Type) (op : World P -> outcome (Exn P) A * World P)
      (entry : outcome (Exn P) A -> call P) :
  framed (invoke op entry).
Proof.
  intros s. unfold invoke, frame, bare; simpl.
  now destruct (op (world s)).
Qed.

Lemma framed_bind (A B : Type) (m : M P A) (k : A -> M P B) :
  framed m -> (forall a, framed (k a)) -> framed (bind m k).
Proof.
  intros Hm Hk s. unfold bind. rewrite (Hm s).
  destruct (m (bare (world s))) as [[a | e] s0]; simpl; [|reflexivity].
  rewrite (Hk a (frame s s0)), (Hk a s0). simpl.
  now rewrite frame_frame.
Qed.

Lemma framed_with (A : Type) (exit : M P unit) (body : M P A) :
  framed exit -> framed body -> framed (with_ exit body).
Proof.
  intros He Hb s. unfold with_. rewrite (Hb s).
  destruct (body (bare (world s))) as [[a | e] s0]; simpl;
    rewrite (He (frame s s0)), (He s0); simpl;
    destruct (fst (exit (bare (world s0)))); simpl;
    now rewrite frame_frame.
Qed.

Lemma framed_extract_pages (pages : list (Page P)) (acc : str) :
  framed (extract_pages pages acc).
Proof.
  revert acc; induction pages as [|page rest IH]; intros acc; simpl.
  - apply framed_ret.
  - apply framed_bind; [apply framed_invoke | intros t; apply IH].
Qed.

Lemma framed_extract_text_from_pdf (f : File P) :
  framed (extract_text_from_pdf f).
Proof.
  unfold extract_text_from_pdf.
  apply framed_bind; [apply framed_invoke | intros pdf].
  apply framed_bind; [|intros t; apply framed_ret].
  apply framed_with; [apply framed_invoke|].
  apply framed_bind; [apply framed_invoke | intros pages].
  apply framed_extract_pages.
Qed.

Lemma texts_of_pages_read_only (pages : list (Page P)) (w : World P) :
  pdf_library_read_only P -> snd (texts_of_pages P pages w) = w.
Proof.
  intros [_ [_ [Hpage _]]]. revert w; induction pages as [|page rest IH]; intros w; simpl.
  - reflexivity.
  - specialize (Hpage page w).
    destruct (page_extract_text P page w) as [[t | e] w1]; simpl in Hpage; subst w1;
      [|reflexivity].
    specialize (IH w).
    now destruct (texts_of_pages P rest w) as [[ts | e] w2].
Qed.

(** What a run of [extract_text_from_pdf] leaves behind. *)
Lemma extract_text_from_pdf_run (f : File P) (s : state P) :
  exists new w,
    snd (extract_text_from_pdf f s) =
      {| world := w; cache := cache s; calls := calls s ++ new; ui := ui s |} /\
    error_of (fst (extract_text_from_pdf f s)) = last_error new /\
    stops_at_error new = true /\
    (pdf_library_read_only P -> w = world s).
Proof.
  unfold extract_text_from_pdf, bind, with_, invoke.
  destruct (pdfplumber_open P f (world s)) as [[pdf | e] w1] eqn:Hopen.
  2:{ exists [CallOpen f (Raise e)], w1. do 3 (split; [reflexivity|]).
      intros [Ho _]. specialize (Ho f (world s)). now rewrite Hopen in Ho. }
  cbn [world cache calls ui].
  destruct (pdf_pages P pdf w1) as [[pages | e] w2] eqn:Hpages.
  2:{ cbn [world cache calls ui].
      destruct (pdf_exit P pdf w2) as [[[] | e'] w3] eqn:Hexit; cbn [fst snd].
      - exists [CallOpen f (Return pdf); CallPages pdf (Raise e);
                CallExit pdf (Return tt)], w3.
        rewrite <- !app_assoc. do 3 (split; [reflexivity|]).
        intros [Ho [Hp [_ Hx]]].
        specialize (Ho f (world s)); specialize (Hp pdf w1); specialize (Hx pdf w2).
        rewrite Hopen in Ho; rewrite Hpages in Hp; rewrite Hexit in Hx.
        simpl in *. congruence.
      - exists [CallOpen f (Return pdf); CallPages pdf (Raise e);
                CallExit pdf (Raise e')], w3.
        rewrite <- !app_assoc. do 3 (split; [reflexivity|]).
        intros [Ho [Hp [_ Hx]]].
        specialize (Ho f (world s)); specialize (Hp pdf w1); specialize (Hx pdf w2).
        rewrite Hopen in Ho; rewrite Hpages in Hp; rewrite Hexit in Hx.
        simpl in *. congruence. }
  match goal with
  | |- context [extract_pages pages [] ?st] =>
      destruct (extract_pages_run pages [] st) as [new [Hsnd Hcases]];
      destruct (extract_pages pages [] st) as [r s3]
  end.
  cbn [world cache calls ui fst snd] in Hsnd, Hcases. subst s3.
  assert (Hro : pdf_library_read_only P ->
                forall w3 x, pdf_exit P pdf (snd (texts_of_pages P pages w2)) = (x, w3) ->
                             w3 = world s).
  { intros Hall w3 x Hexit. pose proof Hall as [Ho [Hp [_ Hx]]].
    specialize (Ho f (world s)); specialize (Hp pdf w1).
    specialize (Hx pdf (snd (texts_of_pages P pages w2))).
    rewrite Hopen in Ho; rewrite Hpages in Hp; rewrite Hexit in Hx.
    rewrite texts_of_pages_read_only in Hx by exact Hall.
    simpl in *. congruence. }
  cbn [world cache calls ui].
  destruct (pdf_exit P pdf (snd (texts_of_pages P pages w2))) as [[[] | e'] w3] eqn:Hexit;
    destruct Hcases as [[ts [_ [Hres Hok]]] | [e [oks [c [_ [Hres [Hnew [Hok Hc]]]]]]]];
    rewrite Hres; cbn [fst snd].
  - exists ([CallOpen f (Return pdf); CallPages pdf (Return pages)] ++ new ++
            [CallExit pdf (Return tt)]), w3.
    rewrite <- !app_assoc. split; [reflexivity|]. split; [|split].
    + rewrite !last_error_app. simpl. now rewrite (last_error_ok Hok).
    + simpl. rewrite stops_at_error_app by exact Hok. reflexivity.
    + intros Hall. now apply (Hro Hall w3 (Return tt)).
  - exists ([CallOpen f (Return pdf); CallPages pdf (Return pages)] ++ new ++
            [CallExit pdf (Return tt)]), w3.
    rewrite <- !app_assoc. split; [reflexivity|]. split; [|split].
    + rewrite !last_error_app. simpl. subst new.
      rewrite last_error_app. simpl. now rewrite Hc.
    + simpl. subst new. rewrite <- app_assoc.
      rewrite stops_at_error_app by exact Hok. simpl. now rewrite Hc.
    + intros Hall. now apply (Hro Hall w3 (Return tt)).
  - exists ([CallOpen f (Return pdf); CallPages pdf (Return pages)] ++ new ++
            [CallExit pdf (Raise e')]), w3.
    rewrite <- !app_assoc. split; [reflexivity|]. split; [|split].
    + rewrite !last_error_app. reflexivity.
    + simpl. rewrite stops_at_error_app by exact Hok. reflexivity.
    + intros Hall. now apply (Hro Hall w3 (Raise e')).
  - exists ([CallOpen f (Return pdf); CallPages pdf (Return pages)] ++ new ++
            [CallExit pdf (Raise e')]), w3.
    rewrite <- !app_assoc. split; [reflexivity|]. split; [|split].
    + rewrite !last_error_app. reflexivity.
    + simpl. subst new. rewrite <- app_assoc.
      rewrite stops_at_error_app by exact Hok. simpl. now rewrite Hc.
    + intros Hall. now apply (Hro Hall w3 (Raise e')).
Qed.



(** What a run of [classify_text] leaves behind. *)
Lemma classify_text_run (classifier : Model P) (text : str) (s : state P) :
  classify_text classifier text s =
    (fst (model_call P classifier text candidate_labels (world s)),
     {| world := snd (model_call P classifier text candidate_labels (world s));
        cache := cache s;
        calls := calls s ++
          [CallClassifier classifier text candidate_labels
             (fst (model_call P classifier text candidate_labels (world s)))];
        ui := ui s |}).
Proof.
  unfold classify_text, bind, invoke.
  now destruct (model_call P classifier text candidate_labels (world s))
    as [[r | e] w].
Qed.

End ExtractFacts.

Section LibraryClaims.
Variable P : Platform.
Local Open Scope py_scope.

(** C3: when pdfplumber opens the upload, lists its pages and extracts the
    texts [ts] from them in page order (each one absent, empty or not), and
    closes, [extract_text_from_pdf] returns the first 4000 characters of the
    concatenation, in page order, of each non-empty text followed by a
    newline; pages without text contribute nothing. *)
Theorem extract_text_from_pdf_spec
        (f : File P) (s : state P) (pdf : Pdf P) (pages : list (Page P))
        (ts : list (option str)) (w1 w2 w3 w4 : World P) :
  pdfplumber_open P f (world s) = (Return pdf, w1) ->
  pdf_pages P pdf w1 = (Return pages, w2) ->
  texts_of_pages P pages w2 = (Return ts, w3) ->
  pdf_exit P pdf w3 = (Return tt, w4) ->
  fst (extract_text_from_pdf f s) =
    Return (firstn 4000 (joined_lines (nonempty_texts ts))).
Proof.
  intros Hopen Hpages Hts Hexit.
  unfold extract_text_from_pdf, bind, with_, invoke.
  rewrite Hopen. cbn [world cache calls ui]. rewrite Hpages.
  match goal with
  | |- context [extract_pages pages [] ?st] =>
      destruct (extract_pages_run pages [] st) as [new [Hsnd Hcases]];
      destruct (extract_pages pages [] st) as [r s3]
  end.
  cbn [world cache calls ui fst snd] in Hsnd, Hcases. subst s3.
  rewrite Hts in Hcases. cbn [world cache calls ui fst snd].
  rewrite Hts. cbn [fst snd] in *. rewrite Hexit.
  destruct Hcases as [[ts' [Heq [-> _]]] | [e [oks [c [Heq _]]]]];
    [injection Heq as <- | discriminate].
  reflexivity.
Qed.

(** C4: [classify_text] makes one call to the classifier, with the text it
    was given and the two candidate labels "scholarly peer-reviewed academic
    article" and "popular or non-academic article" in that order, and what
    the classifier answers is what it returns. *)
Theorem classify_text_spec (classifier : Model P) (text : str) (s : state P) :
  let labels := [ lit "scholarly peer-reviewed academic article";
                  lit "popular or non-academic article" ] in
  let answer := model_call P classifier text labels (world s) in
  classify_text classifier text s =
    (fst answer,
     {| world := snd answer; cache := cache s;
        calls := calls s ++ [CallClassifier classifier text labels (fst answer)];
        ui := ui s |}).
Proof.
  intros labels answer. exact (classify_text_run classifier text s).
Qed.


(** C6, as amended: what [extract_text_from_pdf] returns, the state it
    leaves the libraries in and the calls it makes are determined by the
    upload and the state of the libraries alone, whatever is on the page, in
    the resource cache or in the log; and it leaves the page and the
    resource cache as they were.  What becomes of the upload itself is up to
    pdfplumber's operations. *)
Theorem extract_text_from_pdf_frame (f : File P) (s1 s2 : state P) :
  world s1 = world s2 ->
  fst (extract_text_from_pdf f s1) = fst (extract_text_from_pdf f s2) /\
  world (snd (extract_text_from_pdf f s1)) =
    world (snd (extract_text_from_pdf f s2)) /\
  (exists new,
      calls (snd (extract_text_from_pdf f s1)) = calls s1 ++ new /\
      calls (snd (extract_text_from_pdf f s2)) = calls s2 ++ new) /\
  cache (snd (extract_text_from_pdf f s1)) = cache s1 /\
  ui (snd (extract_text_from_pdf f s1)) = ui s1.
Proof.
  intros Hw.
  rewrite (framed_extract_text_from_pdf f s1), (framed_extract_text_from_pdf f s2).
  rewrite Hw. cbn [fst snd frame world cache calls ui].
  split; [reflexivity|]. split; [reflexivity|]. split; [|split; reflexivity].
  eexists. split; reflexivity.
Qed.

End LibraryClaims.

Lemma extract_text_from_pdf_witness :
  fst (extract_text_from_pdf (P:=Sample.platform) Sample.article Sample.start) =
  Return (lit "Abstract. We study Vol. 3 of the Journal." ++ [NEWLINE] ++
          lit "References: DOI 10.1000/1" ++ [NEWLINE]).
Proof.
  apply (@extract_text_from_pdf_spec Sample.platform Sample.article Sample.start
           (Sample.file_pages Sample.article) (Sample.file_pages Sample.article)
           [ Some (lit "Abstract. We study Vol. 3 of the Journal."); None;
             Some []; Some (lit "References: DOI 10.1000/1") ]
           0 0 0 0); reflexivity.
Defined.


(** C6, as stated, fails: on a platform where pdfplumber reads from the
    uploaded stream, a run of [extract_text_from_pdf] leaves the read
    position elsewhere. *)
Lemma extract_text_from_pdf_moves_stream :
  ~ (forall (P : Platform) (f : File P) (s : state P),
        world (snd (extract_text_from_pdf f s)) = world s).
Proof.
  intros H.
  specialize (H Faulty.streaming Sample.article
                (@Build_state Faulty.streaming 0 None [] [])).
  vm_compute in H. discriminate H.
Qed.

Lemma extract_text_from_pdf_frame_witness :
  let shown := snd (emit Faulty.streaming (Title (lit "earlier"))
                      (@Build_state Faulty.streaming 0 None [] [])) in
  fst (extract_text_from_pdf (P:=Faulty.streaming) Sample.article shown) =
    fst (extract_text_from_pdf (P:=Faulty.streaming) Sample.article
           (@Build_state Faulty.streaming 0 None [] [])) /\
  ui (snd (extract_text_from_pdf (P:=Faulty.streaming) Sample.article shown)) =
    [Title (lit "earlier")].
Proof.
  intros shown.
  destruct (@extract_text_from_pdf_frame Faulty.streaming Sample.article shown
              (@Build_state Faulty.streaming 0 None [] []) eq_refl)
    as [Hfst [_ [_ [_ Hui]]]].
  split; [exact Hfst | exact Hui].
Defined.

(** * The upload handler *)

Section HandlerFacts.
Variable P : Platform.
Local Open Scope py_scope.

Lemma extract_text_from_pdf_length (f : File P) (s : state P) (t : str) :
  fst (extract_text_from_pdf f s) = Return t -> List.length t <= 4000.
Proof.
  unfold extract_text_from_pdf, bind, ret.
  destruct (invoke (pdfplumber_open P f) (CallOpen f) s) as [[pdf | e] s1];
    [|discriminate].
  match goal with
  | |- context [with_ ?x ?b s1] => destruct (with_ x b s1) as [[full | e] s2]
  end; [|discriminate].
  cbn [fst]. intros H.
  replace t with (firstn 4000 full) by congruence. apply firstn_le_length.
Qed.

(** The page a completed run of the handler leaves. *)
Lemma handle_upload_run
      (classifier : Model P) (f : File P) (s s1 s2 : state P) (t : str)
      (r : result (Score P)) (l : str) (ls : list str)
      (c : Score P) (cs : list (Score P)) :
  extract_text_from_pdf f
    (snd (emit P (Spinner (lit "Analyzing document...")) s)) = (Return t, s1) ->
  classify_text classifier t s1 = (Return r, s2) ->
  labels r = l :: ls ->
  scores r = c :: cs ->
  handle_upload classifier f s =
    (Return tt,
     {| world := world s2; cache := cache s2; calls := calls s2;
        ui := ui s ++
          [ Spinner (lit "Analyzing document...");
            Subheader (BAR_CHART ++ lit " Classification Result");
            (if contains (lit "scholarly") l
             then Success (scholarly_message P c)
             else Warning (popular_message P c));
            Subheader (MAGNIFIER_LEFT ++ lit " Evidence Detected") ] ++
          map (fun kv => Write (evidence_line (fst kv) (snd kv)))
              (scholarly_indicators (unicode P) t) ++
          [ Expander (MAGNIFIER_RIGHT ++ lit " Show Extracted Text")
              [Text (firstn 2000 t)] ] |}).
Proof.
  intros Hext Hcls Hl Hc.
  assert (Hui : ui s2 = ui s ++ [Spinner (lit "Analyzing document...")]).
  { destruct (extract_text_from_pdf_run f
                (snd (emit P (Spinner (lit "Analyzing document...")) s)))
      as [new [w [Hsnd _]]].
    rewrite Hext in Hsnd. cbn [fst snd] in Hsnd. subst s1.
    rewrite classify_text_run in Hcls. injection Hcls as _ <-. reflexivity. }
  unfold handle_upload, st_spinner, bind.
  change (emit P (Spinner (lit "Analyzing document...")) s)
    with (Return (E:=Exn P) tt,
          snd (emit P (Spinner (lit "Analyzing document...")) s)).
  cbn beta iota. rewrite Hext, Hcls. unfold ret. rewrite Hl, Hc.
  unfold index0, ret, scholarly_indicators.
  destruct (contains (lit "scholarly") l);
    cbn [emit for_each bind ret st_expander world cache calls ui fst snd map];
    rewrite Hui, <- !app_assoc; reflexivity.
Qed.

(** A run of the handler that completes went through both library calls
    and found a top label and a top score. *)
Lemma handle_upload_done
      (classifier : Model P) (f : File P) (s s' : state P) :
  handle_upload classifier f s = (Return tt, s') ->
  exists t s1 r s2 l ls c cs,
    extract_text_from_pdf f
      (snd (emit P (Spinner (lit "Analyzing document...")) s)) = (Return t, s1) /\
    classify_text classifier t s1 = (Return r, s2) /\
    labels r = l :: ls /\
    scores r = c :: cs.
Proof.
  unfold handle_upload, st_spinner, bind.
  change (emit P (Spinner (lit "Analyzing document...")) s)
    with (Return (E:=Exn P) tt,
          snd (emit P (Spinner (lit "Analyzing document...")) s)).
  cbn beta iota.
  destruct (extract_text_from_pdf f _) as [[t | e] s1] eqn:Hext; [|discriminate].
  destruct (classify_text classifier t s1) as [[r | e] s2] eqn:Hcls; [|discriminate].
  unfold ret. cbn beta iota.
  destruct (labels r) as [|l ls] eqn:Hl; [discriminate|].
  destruct (scores r) as [|c cs] eqn:Hc; [discriminate|].
  intros _. now exists t, s1, r, s2, l, ls, c, cs.
Qed.

End HandlerFacts.

Section HandlerClaims.
Variable P : Platform.
Local Open Scope py_scope.

(** C1: when the classifier answers with a result whose top-ranked label is
    [l] and top-ranked score is [c], the handler shows exactly one verdict:
    the Scholarly / Peer-reviewed one when "scholarly" occurs in [l] and the
    Popular / Non-academic one otherwise, each with [c] formatted as the
    confidence. *)
Theorem verdict_follows_top_label
        (classifier : Model P) (f : File P) (s s1 s2 : state P) (t : str)
        (r : result (Score P)) (l : str) (ls : list str)
        (c : Score P) (cs : list (Score P)) :
  extract_text_from_pdf f
    (snd (emit P (Spinner (lit "Analyzing document...")) s)) = (Return t, s1) ->
  classify_text classifier t s1 = (Return r, s2) ->
  labels r = l :: ls ->
  scores r = c :: cs ->
  exists new verdict,
    fst (handle_upload classifier f s) = Return tt /\
    ui (snd (handle_upload classifier f s)) = ui s ++ new /\
    filter is_verdict new = [verdict] /\
    (occurs_in (lit "scholarly") l ->
     verdict = Success (CHECK_MARK ++ lit " Scholarly / Peer-reviewed (Confidence: "
                          ++ format_percent P c ++ lit ")")) /\
    (~ occurs_in (lit "scholarly") l ->
     verdict = Warning (WARNING_SIGN ++ lit " Popular / Non-academic (Confidence: "
                          ++ format_percent P c ++ lit ")")).
Proof.
  intros Hext Hcls Hl Hc.
  rewrite (handle_upload_run classifier f s Hext Hcls Hl Hc). cbn [fst snd ui].
  pose proof (contains_spec (lit "scholarly") l) as Hspec.
  unfold scholarly_indicators.
  destruct (contains (lit "scholarly") l);
    eexists; eexists; (split; [reflexivity|]); (split; [reflexivity|]);
    (split; [reflexivity|]); split; intros H; try reflexivity.
  - exfalso. apply H, Hspec. reflexivity.
  - apply Hspec in H. discriminate.
Qed.

(** C7: a run of the handler that completes writes the four indicators of
    the extracted text, in the order Contains Abstract, Contains References,
    Contains DOI, Mentions Journal/Volume, each behind a check mark when its
    value is true and a cross mark when it is false. *)
Theorem evidence_lines_displayed
        (classifier : Model P) (f : File P) (s s' : state P) :
  handle_upload classifier f s = (Return tt, s') ->
  exists t s1 new abstract references doi journal,
    extract_text_from_pdf f
      (snd (emit P (Spinner (lit "Analyzing document...")) s)) = (Return t, s1) /\
    scholarly_indicators (unicode P) t =
      [ (lit "Contains Abstract", abstract);
        (lit "Contains References", references);
        (lit "Contains DOI", doi);
        (lit "Mentions Journal/Volume", journal) ] /\
    ui s' = ui s ++ new /\
    filter is_write new =
      [ Write ((if abstract then CHECK_MARK else CROSS_MARK)
                 ++ lit " Contains Abstract");
        Write ((if references then CHECK_MARK else CROSS_MARK)
                 ++ lit " Contains References");
        Write ((if doi then CHECK_MARK else CROSS_MARK)
                 ++ lit " Contains DOI");
        Write ((if journal then CHECK_MARK else CROSS_MARK)
                 ++ lit " Mentions Journal/Volume") ].
Proof.
  intros Hrun.
  destruct (handle_upload_done classifier f s Hrun)
    as [t [s1 [r [s2 [l [ls [c [cs [Hext [Hcls [Hl Hc]]]]]]]]]]].
  rewrite (handle_upload_run classifier f s Hext Hcls Hl Hc) in Hrun.
  injection Hrun as <-. cbn [ui].
  exists t, s1. eexists. do 4 eexists.
  split; [exact Hext|]. split; [reflexivity|]. split; [reflexivity|].
  unfold scholarly_indicators.
  destruct (contains (lit "scholarly") l); reflexivity.
Qed.

(** C10: in a run of the handler that completes, the extracted text [t]
    that went to the classifier and to the indicators has at most 4000
    characters, and the expander holds its first 2000 characters at most: a
    prefix of [t]. *)
Theorem shown_text_is_prefix_of_classified
        (classifier : Model P) (f : File P) (s s' : state P) :
  handle_upload classifier f s = (Return tt, s') ->
  exists t r earlier new shown,
    calls s' = earlier ++ [CallClassifier classifier t candidate_labels (Return r)] /\
    List.length t <= 4000 /\
    ui s' = ui s ++ new /\
    filter is_write new =
      map (fun kv => Write (evidence_line (fst kv) (snd kv)))
          (scholarly_indicators (unicode P) t) /\
    filter is_expander new =
      [ Expander (MAGNIFIER_RIGHT ++ lit " Show Extracted Text") [Text shown] ] /\
    shown = firstn 2000 t /\
    List.length shown <= 2000 /\
    exists rest, t = shown ++ rest.
Proof.
  intros Hrun.
  destruct (handle_upload_done classifier f s Hrun)
    as [t [s1 [r [s2 [l [ls [c [cs [Hext [Hcls [Hl Hc]]]]]]]]]]].
  rewrite (handle_upload_run classifier f s Hext Hcls Hl Hc) in Hrun.
  injection Hrun as <-. cbn [ui calls].
  exists t, r, (calls s1). eexists. exists (firstn 2000 t).
  split.
  { rewrite classify_text_run in Hcls.
    injection Hcls as Hr <-. cbn [calls]. now rewrite Hr. }
  split.
  { apply (extract_text_from_pdf_length f
             (snd (emit P (Spinner (lit "Analyzing document...")) s))).
    now rewrite Hext. }
  split; [reflexivity|].
  unfold scholarly_indicators.
  split; [destruct (contains (lit "scholarly") l); reflexivity|].
  split; [destruct (contains (lit "scholarly") l); reflexivity|].
  split; [reflexivity|].
  split; [apply firstn_le_length|].
  exists (skipn 2000 t). symmetry. apply firstn_skipn.
Qed.

End HandlerClaims.

(** * The script on the sample uploads *)

Lemma verdict_follows_top_label_witness :
  exists new,
    ui (snd (handle_upload (P:=Sample.platform) tt Sample.article Sample.start)) =
      ui Sample.start ++ new /\
    filter is_verdict new =
      [ Success (CHECK_MARK ++
                 lit " Scholarly / Peer-reviewed (Confidence: 91.50%)") ].
Proof.
  pose (s0 := snd (emit Sample.platform (Spinner (lit "Analyzing document..."))
                     Sample.start)).
  pose (t := lit "Abstract. We study Vol. 3 of the Journal." ++ [NEWLINE] ++
             lit "References: DOI 10.1000/1" ++ [NEWLINE]).
  pose (s1 := snd (extract_text_from_pdf (P:=Sample.platform) Sample.article s0)).
  pose (r := {| sequence := t; labels := candidate_labels;
                scores := [9150%N; 850%N] |}).
  pose (s2 := snd (classify_text (P:=Sample.platform) tt t s1)).
  assert (Hext : extract_text_from_pdf (P:=Sample.platform) Sample.article s0
                 = (Return t, s1)) by (vm_compute; reflexivity).
  assert (Hcls : classify_text (P:=Sample.platform) tt t s1 = (Return r, s2))
    by (vm_compute; reflexivity).
  assert (Hl : labels r = lit "scholarly peer-reviewed academic article"
                          :: [lit "popular or non-academic article"])
    by reflexivity.
  assert (Hc : scores r = 9150%N :: [850%N]) by reflexivity.
  destruct (@verdict_follows_top_label Sample.platform tt Sample.article Sample.start s1 s2 t r _ _ _ _ Hext Hcls Hl Hc)
    as [new [verdict [_ [Hui [Hverdict [Hscholarly _]]]]]].
  exists new. split; [exact Hui|].
  rewrite Hverdict, Hscholarly; [reflexivity|].
  apply contains_spec. vm_compute. reflexivity.
Defined.

Lemma evidence_lines_displayed_witness :
  exists new,
    ui (snd (handle_upload (P:=Sample.platform) tt Sample.article Sample.start)) =
      ui Sample.start ++ new /\
    filter is_write new =
      [ Write (CHECK_MARK ++ lit " Contains Abstract");
        Write (CHECK_MARK ++ lit " Contains References");
        Write (CHECK_MARK ++ lit " Contains DOI");
        Write (CHECK_MARK ++ lit " Mentions Journal/Volume") ].
Proof.
  pose (s' := snd (handle_upload (P:=Sample.platform) tt Sample.article Sample.start)).
  assert (Hrun : handle_upload (P:=Sample.platform) tt Sample.article Sample.start
                 = (Return tt, s')) by (vm_compute; reflexivity).
  destruct (@evidence_lines_displayed Sample.platform tt Sample.article
              Sample.start s' Hrun)
    as [t [s1 [new [a [r [d [j [Hext [Hind [Hui Hwrite]]]]]]]]]].
  exists new. split; [exact Hui|].
  assert (Ht : t = lit "Abstract. We study Vol. 3 of the Journal." ++ [NEWLINE] ++
                   lit "References: DOI 10.1000/1" ++ [NEWLINE]).
  { apply (f_equal fst) in Hext. vm_compute in Hext. now injection Hext as <-. }
  subst t. vm_compute in Hind. injection Hind as <- <- <- <-.
  exact Hwrite.
Defined.

Lemma shown_text_is_prefix_of_classified_witness :
  exists t shown,
    In (Expander (MAGNIFIER_RIGHT ++ lit " Show Extracted Text") [Text shown])
       (ui (snd (handle_upload (P:=Sample.platform) tt Sample.article Sample.start))) /\
    List.length shown <= 2000 /\
    List.length t <= 4000 /\
    exists rest, t = shown ++ rest.
Proof.
  pose (s' := snd (handle_upload (P:=Sample.platform) tt Sample.article Sample.start)).
  assert (Hrun : handle_upload (P:=Sample.platform) tt Sample.article Sample.start
                 = (Return tt, s')) by (vm_compute; reflexivity).
  destruct (@shown_text_is_prefix_of_classified Sample.platform tt Sample.article
              Sample.start s' Hrun)
    as [t [r [earlier [new [shown [_ [Hlen [Hui [_ [Hexp [_ [Hshown Hprefix]]]]]]]]]]]].
  exists t, shown. split; [|split; [exact Hshown | split; [exact Hlen | exact Hprefix]]].
  fold s'. rewrite Hui. apply in_or_app. right.
  apply (proj1 (filter_In is_expander _ new)). rewrite Hexp. now left.
Defined.

(** A page whose extraction raises ends the loop: the third page is never
    asked for, the [with] statement still exits, and the error comes out. *)
Example broken_upload_raises :
  fst (extract_text_from_pdf (P:=Sample.platform) Sample.broken Sample.start) =
    Raise Sample.DamagedPage /\
  map (@call_error Sample.platform)
      (calls (snd (extract_text_from_pdf (P:=Sample.platform)
                     Sample.broken Sample.start))) =
    [None; None; None; Some Sample.DamagedPage; None].
Proof. split; vm_compute; reflexivity. Qed.

Example not_a_pdf_raises :
  fst (handle_upload (P:=Sample.platform) tt Sample.not_a_pdf Sample.start) =
    Raise Sample.NotAPdf /\
  ui (snd (handle_upload (P:=Sample.platform) tt Sample.not_a_pdf Sample.start)) =
    [Spinner (lit "Analyzing document...")].
Proof. split; vm_compute; reflexivity. Qed.

(** Without an upload the script shows the title, the blurb and the
    uploader, and nothing else. *)
Example app_without_upload :
  fst (app (P:=Sample.platform) (@uncached Sample.platform) None Sample.start) =
    Return tt /\
  ui (snd (app (P:=Sample.platform) (@uncached Sample.platform) None Sample.start)) =
    [ Title (PAGE_FACING_UP ++ lit " AI Scholarly Article Detector");
      Markdown (lit "Upload a PDF and this AI will determine if it is peer-reviewed or a popular source.");
      FileUploader (lit "Upload PDF") [lit "pdf"] ].
Proof. split; vm_compute; reflexivity. Qed.

(** A text without an abstract is ranked popular first by the sample
    classifier, and the handler warns. *)
Example popular_upload_warns :
  filter is_verdict
    (ui (snd (handle_upload (P:=Sample.platform) tt
                {| Sample.is_pdf := true;
                   Sample.file_pages := [Sample.PageText (Some (lit "Top ten doi myths"))] |}
                Sample.start))) =
    [ Warning (WARNING_SIGN ++ lit " Popular / Non-academic (Confidence: 91.50%)") ].
Proof. vm_compute; reflexivity. Qed.


(** * More about the runs *)

Section MoreRuns.
Variable P : Platform.
Local Open Scope py_scope.

Lemma extract_pages_success (pages : list (Page P)) :
  forall (acc : str) (s : state P) (ts : list (option str)) (w' : World P),
    texts_of_pages P pages (world s) = (Return ts, w') ->
    extract_pages pages acc s =
      (Return (acc ++ joined_lines (nonempty_texts ts)),
       {| world := w'; cache := cache s;
          calls := calls s ++ map (@extracted P) (combine pages ts);
          ui := ui s |}) /\
    List.length ts = List.length pages.
Proof.
  induction pages as [|page rest IH]; intros acc s ts w' Hts.
  - simpl in Hts. injection Hts as <- <-. simpl. unfold ret, joined_lines. simpl.
    rewrite !app_nil_r. destruct s; split; reflexivity.
  - cbn [texts_of_pages] in Hts. cbn [extract_pages]. unfold bind, invoke.
    destruct (page_extract_text P page (world s)) as [[t | e] w1]; [|discriminate].
    destruct (texts_of_pages P rest w1) as [[ts' | e] w2] eqn:Hrest; [|discriminate].
    injection Hts as <- <-.
    match goal with
    | |- context [extract_pages rest ?a ?st] =>
        destruct (IH a st ts' w2 Hrest) as [-> Hlen]
    end.
    cbn [world cache calls ui]. split.
    + f_equal.
      * f_equal. destruct t as [[|c t]|]; simpl; try reflexivity.
        unfold joined_lines. simpl. rewrite <- app_assoc. reflexivity.
      * rewrite <- app_assoc. reflexivity.
    + simpl. now rewrite Hlen.
Qed.

Lemma extract_text_from_pdf_success
      (f : File P) (s : state P) (pdf : Pdf P) (pages : list (Page P))
      (ts : list (option str)) (w1 w2 w3 w4 : World P) :
  pdfplumber_open P f (world s) = (Return pdf, w1) ->
  pdf_pages P pdf w1 = (Return pages, w2) ->
  texts_of_pages P pages w2 = (Return ts, w3) ->
  pdf_exit P pdf w3 = (Return tt, w4) ->
  extract_text_from_pdf f s =
    (Return (firstn 4000 (joined_lines (nonempty_texts ts))),
     {| world := w4; cache := cache s;
        calls := calls s ++
          [CallOpen f (Return pdf); CallPages pdf (Return pages)] ++
          map (@extracted P) (combine pages ts) ++
          [CallExit pdf (Return tt)];
        ui := ui s |}).
Proof.
  intros Hopen Hpages Hts Hexit.
  unfold extract_text_from_pdf, bind, with_, invoke.
  rewrite Hopen. cbn [world cache calls ui]. rewrite Hpages.
  match goal with
  | |- context [extract_pages pages [] ?st] =>
      destruct (@extract_pages_success pages [] st ts w3 Hts) as [-> _]
  end.
  cbn [world cache calls ui]. rewrite Hexit. unfold ret.
  rewrite <- !app_assoc. reflexivity.
Qed.


End MoreRuns.

Section MoreHandler.
Variable P : Platform.
Local Open Scope py_scope.

Lemma extract_pages_no_exit (pages : list (Page P)) :
  forall (acc : str) (s : state P),
  exists new,
    calls (snd (extract_pages pages acc s)) = calls s ++ new /\
    Forall (fun c => is_exit c = false) new.
Proof.
  induction pages as [|page rest IH]; intros acc s.
  - exists []. simpl. rewrite app_nil_r. split; constructor.
  - cbn [extract_pages]. unfold bind, invoke.
    destruct (page_extract_text P page (world s)) as [[t | e] w1].
    + match goal with
      | |- context [extract_pages rest ?a ?st] =>
          destruct (IH a st) as [new [Hcalls Hnew]]
      end.
      exists (CallExtractText page (Return t) :: new). split.
      * rewrite Hcalls. cbn [calls]. now rewrite <- app_assoc.
      * constructor; [reflexivity | exact Hnew].
    + exists [CallExtractText page (Raise e)]. split; [reflexivity|].
      constructor; [reflexivity | constructor].
Qed.

(** The handler, outcome by outcome. *)
Lemma handle_upload_cases (classifier : Model P) (f : File P) (s : state P) :
  let s0 := snd (emit P (Spinner (lit "Analyzing document...")) s) in
  match extract_text_from_pdf f s0 with
  | (Raise e, s1) => handle_upload classifier f s = (Raise e, s1)
  | (Return t, s1) =>
      match classify_text classifier t s1 with
      | (Raise e, s2) => handle_upload classifier f s = (Raise e, s2)
      | (Return r, s2) =>
          match labels r, scores r with
          | [], _ => handle_upload classifier f s = (Raise (IndexError P), s2)
          | _ :: _, [] => handle_upload classifier f s = (Raise (IndexError P), s2)
          | _ :: _, _ :: _ => fst (handle_upload classifier f s) = Return tt
          end
      end
  end.
Proof.
  intros s0. unfold handle_upload, st_spinner, bind.
  change (emit P (Spinner (lit "Analyzing document...")) s)
    with (Return (E:=Exn P) tt, s0).
  cbn beta iota.
  destruct (extract_text_from_pdf f s0) as [[t | e] s1]; [|reflexivity].
  destruct (classify_text classifier t s1) as [[r | e] s2]; [|reflexivity].
  unfold ret. cbn beta iota.
  destruct (labels r) as [|l ls]; [reflexivity|].
  destruct (scores r) as [|c cs]; [reflexivity|].
  unfold index0, ret.
  destruct (contains (lit "scholarly") l); reflexivity.
Qed.

(** Neither library function touches the page or the cache. *)
Lemma analysis_keeps_page (classifier : Model P) (f : File P) (s : state P) :
  (ui (snd (extract_text_from_pdf f s)) = ui s /\
   cache (snd (extract_text_from_pdf f s)) = cache s) /\
  (forall t, ui (snd (classify_text classifier t s)) = ui s /\
             cache (snd (classify_text classifier t s)) = cache s).
Proof.
  split.
  - destruct (extract_text_from_pdf_run f s) as [new [w [-> _]]]. split; reflexivity.
  - intros t. rewrite classify_text_run. split; reflexivity.
Qed.

(** A handler that raises has shown the spinner and nothing else. *)
Lemma handle_upload_error_page
      (classifier : Model P) (f : File P) (s : state P) (e : Exn P) :
  fst (handle_upload classifier f s) = Raise e ->
  ui (snd (handle_upload classifier f s)) =
    ui s ++ [Spinner (lit "Analyzing document...")].
Proof.
  intros Hraise.
  pose proof (handle_upload_cases classifier f s) as H. cbv zeta in H.
  set (s0 := snd (emit P (Spinner (lit "Analyzing document...")) s)) in *.
  destruct (analysis_keeps_page classifier f s0) as [[Hui0 _] _].
  destruct (extract_text_from_pdf f s0) as [[t | e0] s1]; cbn [snd] in Hui0.
  - destruct (analysis_keeps_page classifier f s1) as [_ Hcls].
    destruct (Hcls t) as [Hui1 _]. clear Hcls.
    destruct (classify_text classifier t s1) as [[r | e1] s2]; cbn [snd] in Hui1.
    + destruct (labels r) as [|l ls]; [|destruct (scores r) as [|c cs]].
      * rewrite H. cbn [snd]. now rewrite Hui1, Hui0.
      * rewrite H. cbn [snd]. now rewrite Hui1, Hui0.
      * rewrite H in Hraise. discriminate.
    + rewrite H. cbn [snd]. now rewrite Hui1, Hui0.
  - rewrite H. cbn [snd]. now rewrite Hui0.
Qed.

End MoreHandler.

Section ExtractionExtras.
Variable P : Platform.
Local Open Scope py_scope.

(** X1: once [pdfplumber.open] has returned a PDF, the run of
    [extract_text_from_pdf] ends with the [__exit__] of that PDF, whatever
    happened in between; it is the only [__exit__] of the run, and when it
    raises, its error is the one that comes out. *)
Theorem pdf_closed_once_opened
        (f : File P) (s : state P) (pdf : Pdf P) (w1 : World P) :
  pdfplumber_open P f (world s) = (Return pdf, w1) ->
  exists mid r,
    calls (snd (extract_text_from_pdf f s)) =
      calls s ++ CallOpen f (Return pdf) :: mid ++ [CallExit pdf r] /\
    Forall (fun c => is_exit c = false) mid /\
    (forall e, r = Raise e -> fst (extract_text_from_pdf f s) = Raise e).
Proof.
  intros Hopen. unfold extract_text_from_pdf, bind, with_, invoke.
  rewrite Hopen. cbn [world cache calls ui].
  destruct (pdf_pages P pdf w1) as [[pages | e] w2].
  - match goal with
    | |- context [extract_pages pages [] ?st] =>
        destruct (extract_pages_no_exit pages [] st) as [new [Hcalls Hnew]];
        destruct (extract_pages pages [] st) as [r0 s3]
    end.
    cbn [calls snd] in Hcalls.
    exists (CallPages pdf (Return pages) :: new), (fst (pdf_exit P pdf (world s3))).
    destruct r0 as [full | e0];
      destruct (pdf_exit P pdf (world s3)) as [[[] | e'] w3];
      cbn [fst snd calls]; rewrite Hcalls, <- !app_assoc;
      (split; [reflexivity|]);
      (split; [constructor; [reflexivity | exact Hnew]|]);
      intros e He; try discriminate; now injection He as ->.
  - cbn [world cache calls ui].
    exists [CallPages pdf (Raise e)], (fst (pdf_exit P pdf w2)).
    destruct (pdf_exit P pdf w2) as [[[] | e'] w3];
      cbn [fst snd calls]; rewrite <- !app_assoc;
      (split; [reflexivity|]);
      (split; [constructor; [reflexivity | constructor]|]);
      intros e0 He; try discriminate; now injection He as ->.
Qed.

(** X2: when nothing raises, every page of the PDF is asked for its text
    exactly once, in page order, between listing the pages and leaving the
    [with] statement; the 4000-character limit is applied afterwards and
    stops no extraction. *)
Theorem every_page_is_read
        (f : File P) (s : state P) (pdf : Pdf P) (pages : list (Page P))
        (ts : list (option str)) (w1 w2 w3 w4 : World P) :
  pdfplumber_open P f (world s) = (Return pdf, w1) ->
  pdf_pages P pdf w1 = (Return pages, w2) ->
  texts_of_pages P pages w2 = (Return ts, w3) ->
  pdf_exit P pdf w3 = (Return tt, w4) ->
  calls (snd (extract_text_from_pdf f s)) =
    calls s ++
    [CallOpen f (Return pdf); CallPages pdf (Return pages)] ++
    map (@extracted P) (combine pages ts) ++
    [CallExit pdf (Return tt)] /\
  map fst (combine pages ts) = pages /\
  world (snd (extract_text_from_pdf f s)) = w4.
Proof.
  intros Hopen Hpages Hts Hexit.
  rewrite (extract_text_from_pdf_success f s Hopen Hpages Hts Hexit).
  cbn [snd calls world]. split; [reflexivity|]. split; [|reflexivity].
  destruct (@extract_pages_success P pages []
              {| world := w2; cache := cache s; calls := calls s; ui := ui s |}
              ts w3 Hts) as [_ Hlen].
  clear - Hlen. revert ts Hlen.
  induction pages as [|p pages IH]; intros [|t ts] Hlen; simpl in *;
    try reflexivity; try discriminate.
  f_equal. apply IH. now injection Hlen.
Qed.

Lemma indicator_true_app_r (U : UnicodeData) (key s t : str) :
  lookup key (scholarly_indicators U s) = Some true ->
  lookup key (scholarly_indicators U (s ++ t)) = Some true.
Proof.
  unfold scholarly_indicators. cbn [lookup].
  repeat match goal with
         | |- context [str_eqb key ?k] => destruct (str_eqb key k)
         end;
    try discriminate; intros H; injection H as H.
  - now rewrite (contains_app_r _ _ t H).
  - apply orb_true_iff in H as [H | H]; rewrite (contains_app_r _ _ t H);
      now rewrite ?orb_true_r.
  - now rewrite (@doi_app_r U s t H).
  - apply orb_true_iff in H as [H | H]; rewrite (contains_app_r _ _ t H);
      now rewrite ?orb_true_r.
Qed.

(** X3: cutting the text at 4000 characters creates no evidence: an
    indicator that is true on what [extract_text_from_pdf] returns is true
    on the whole text of the document. *)
Theorem truncation_keeps_true_indicators
        (f : File P) (s : state P) (pdf : Pdf P) (pages : list (Page P))
        (ts : list (option str)) (w1 w2 w3 w4 : World P) :
  pdfplumber_open P f (world s) = (Return pdf, w1) ->
  pdf_pages P pdf w1 = (Return pages, w2) ->
  texts_of_pages P pages w2 = (Return ts, w3) ->
  pdf_exit P pdf w3 = (Return tt, w4) ->
  exists t,
    fst (extract_text_from_pdf f s) = Return t /\
    forall key,
      lookup key (scholarly_indicators (unicode P) t) = Some true ->
      lookup key (scholarly_indicators (unicode P)
                    (joined_lines (nonempty_texts ts))) = Some true.
Proof.
  intros Hopen Hpages Hts Hexit.
  rewrite (extract_text_from_pdf_success f s Hopen Hpages Hts Hexit).
  eexists. split; [reflexivity|]. intros key H.
  rewrite <- (firstn_skipn 4000 (joined_lines (nonempty_texts ts))).
  now apply indicator_true_app_r.
Qed.

End ExtractionExtras.

Section HandlerExtras.
Variable P : Platform.
Local Open Scope py_scope.

(** X4: a run of the handler that raises, for whatever reason, has put
    nothing on the page but the spinner: no verdict, no evidence line and no
    extracted text is ever shown for an upload that could not be fully
    processed. *)
Theorem handler_error_shows_nothing
        (classifier : Model P) (f : File P) (s : state P) (e : Exn P) :
  fst (handle_upload classifier f s) = Raise e ->
  ui (snd (handle_upload classifier f s)) =
    ui s ++ [Spinner (lit "Analyzing document...")].
Proof.
  pose proof (handle_upload_cases classifier f s) as H. cbv zeta in H.
  set (s0 := snd (emit P (Spinner (lit "Analyzing document...")) s)) in *.
  pose proof (proj1 (analysis_keeps_page classifier f s0)) as [Hui0 _].
  destruct (extract_text_from_pdf f s0) as [[t | e0] s1]; cbn [snd] in Hui0.
  - pose proof (proj2 (analysis_keeps_page classifier f s1) t) as [Hui1 _].
    destruct (classify_text classifier t s1) as [[r | e1] s2]; cbn [snd] in Hui1.
    + destruct (labels r) as [|l ls]; [|destruct (scores r) as [|c cs]];
        rewrite H; try discriminate; intros _; cbn [snd];
        now rewrite Hui1, Hui0.
    + rewrite H. intros _. cbn [snd]. now rewrite Hui1, Hui0.
  - rewrite H. intros _. cbn [snd]. now rewrite Hui0.
Qed.

(** X5: when the classifier's result has no label or no score, taking the
    first one raises IndexError; the run ends there, after both library
    calls. *)
Theorem empty_result_raises_index_error
        (classifier : Model P) (f : File P) (s s1 s2 : state P) (t : str)
        (r : result (Score P)) :
  extract_text_from_pdf f
    (snd (emit P (Spinner (lit "Analyzing document...")) s)) = (Return t, s1) ->
  classify_text classifier t s1 = (Return r, s2) ->
  labels r = [] \/ scores r = [] ->
  handle_upload classifier f s = (Raise (IndexError P), s2).
Proof.
  intros Hext Hcls Hempty.
  pose proof (handle_upload_cases classifier f s) as H. cbv zeta in H.
  rewrite Hext, Hcls in H.
  destruct (labels r) as [|l ls]; [exact H|].
  destruct (scores r) as [|c cs]; [exact H|].
  destruct Hempty; discriminate.
Qed.

(** X6: an upload that pdfplumber cannot open ends the run with
    pdfplumber's error; no page is read, the classifier is never called, and
    the page shows the spinner only. *)
Theorem unreadable_upload
        (classifier : Model P) (f : File P) (s : state P) (e : Exn P)
        (w1 : World P) :
  pdfplumber_open P f (world s) = (Raise e, w1) ->
  handle_upload classifier f s =
    (Raise e,
     {| world := w1; cache := cache s;
        calls := calls s ++ [CallOpen f (Raise e)];
        ui := ui s ++ [Spinner (lit "Analyzing document...")] |}).
Proof.
  intros Hopen.
  pose proof (handle_upload_cases classifier f s) as H. cbv zeta in H.
  unfold extract_text_from_pdf at 1, bind at 1, invoke at 1 in H.
  cbn [emit snd world cache calls ui] in H. rewrite Hopen in H.
  exact H.
Qed.



(** X8: when the classifier's top label is one of the two candidate
    labels, the verdict is the scholarly one exactly when that label is the
    first candidate: the substring test tells the two labels apart. *)
Theorem verdict_matches_top_candidate
        (classifier : Model P) (f : File P) (s s1 s2 : state P) (t : str)
        (r : result (Score P)) (l : str) (ls : list str)
        (c : Score P) (cs : list (Score P)) :
  extract_text_from_pdf f
    (snd (emit P (Spinner (lit "Analyzing document...")) s)) = (Return t, s1) ->
  classify_text classifier t s1 = (Return r, s2) ->
  labels r = l :: ls ->
  scores r = c :: cs ->
  In l candidate_labels ->
  exists new,
    ui (snd (handle_upload classifier f s)) = ui s ++ new /\
    (l = lit "scholarly peer-reviewed academic article" ->
     filter is_verdict new = [Success (scholarly_message P c)]) /\
    (l = lit "popular or non-academic article" ->
     filter is_verdict new = [Warning (popular_message P c)]) /\
    (l = lit "scholarly peer-reviewed academic article" \/
     l = lit "popular or non-academic article").
Proof.
  intros Hext Hcls Hl Hc Hin.
  rewrite (handle_upload_run classifier f s Hext Hcls Hl Hc). cbn [snd ui].
  eexists. split; [reflexivity|].
  unfold scholarly_indicators.
  destruct Hin as [<- | [<- | []]].
  - split; [intros _; reflexivity|]. split; [discriminate | now left].
  - split; [discriminate|]. split; [intros _; reflexivity | now right].
Qed.

(** X9: the expander shows the whole extracted text when it has at most
    2000 characters, and exactly 2000 characters otherwise. *)
Theorem shown_text_length
        (classifier : Model P) (f : File P) (s s' s1 : state P) (t : str) :
  handle_upload classifier f s = (Return tt, s') ->
  extract_text_from_pdf f
    (snd (emit P (Spinner (lit "Analyzing document...")) s)) = (Return t, s1) ->
  exists shown,
    last (ui s') (Title []) =
      Expander (MAGNIFIER_RIGHT ++ lit " Show Extracted Text") [Text shown] /\
    List.length shown = Nat.min 2000 (List.length t) /\
    (List.length t <= 2000 -> shown = t).
Proof.
  intros Hrun Hext.
  destruct (handle_upload_done classifier f s Hrun)
    as [t' [s1' [r [s2 [l [ls [c [cs [Hext' [Hcls [Hl Hc]]]]]]]]]]].
  rewrite (handle_upload_run classifier f s Hext' Hcls Hl Hc) in Hrun.
  apply (f_equal snd) in Hrun. cbn [snd] in Hrun. subst s'. cbn [ui].
  assert (t' = t) as -> by congruence.
  exists (firstn 2000 t). split; [|split].
  - rewrite !app_assoc. apply last_last.
  - apply length_firstn.
  - apply firstn_all2.
Qed.

End HandlerExtras.

Section AppExtras.
Variable P : Platform.
Variable cache_resource : M P (Model P) -> M P (Model P).
Local Open Scope py_scope.

(** X12: a run that raises shows no result.  When [load_classifier()]
    raises, whatever [st.cache_resource] does around the pipeline call, the
    script raises that error and stops in the state the load left: no
    title, blurb or uploader follows and the upload is not looked at.  When
    the classifier was loaded and the run raises later, the page holds what
    the load left, then the title, the blurb, the uploader and the spinner,
    and nothing after them. *)
Theorem model_failure_shows_nothing
        (uploaded_file : option (File P)) (s s1 : state P) :
  (forall e,
      load_classifier cache_resource s = (Raise e, s1) ->
      app cache_resource uploaded_file s = (Raise e, s1)) /\
  (forall m e,
      load_classifier cache_resource s = (Return m, s1) ->
      fst (app cache_resource uploaded_file s) = Raise e ->
      ui (snd (app cache_resource uploaded_file s)) =
        ui s1 ++
        [ Title (PAGE_FACING_UP ++ lit " AI Scholarly Article Detector");
          Markdown (lit "Upload a PDF and this AI will determine if it is peer-reviewed or a popular source.");
          FileUploader (lit "Upload PDF") [lit "pdf"];
          Spinner (lit "Analyzing document...") ]).
Proof.
  split.
  - intros e H. unfold app, bind. now rewrite H.
  - intros m e H. unfold app, bind. rewrite H.
    cbn [emit ret fst snd world cache calls ui].
    destruct uploaded_file as [f|]; [|discriminate].
    intros Hraise.
    rewrite (handle_upload_error_page _ _ _ Hraise). cbn [ui].
    now rewrite <- !app_assoc.
Qed.

(** X13: without an upload, once the classifier is loaded the script adds
    the title, the blurb and the uploader to the page, in that order, and
    nothing else: it makes no call to pdfplumber or to the classifier and
    leaves every other part of the state as the load left it. *)
Theorem no_upload_no_analysis (s s1 : state P) (m : Model P) :
  load_classifier cache_resource s = (Return m, s1) ->
  app cache_resource None s =
    (Return tt,
     {| world := world s1; cache := cache s1; calls := calls s1;
        ui := ui s1 ++
          [ Title (PAGE_FACING_UP ++ lit " AI Scholarly Article Detector");
            Markdown (lit "Upload a PDF and this AI will determine if it is peer-reviewed or a popular source.");
            FileUploader (lit "Upload PDF") [lit "pdf"] ] |}).
Proof.
  intros H. unfold app, bind. rewrite H.
  cbn [emit ret fst snd world cache calls ui]. now rewrite <- !app_assoc.
Qed.

(** X15: a PDF that opens but has no text on any page (or no page) is not
    turned away by the script: the classifier is called on the empty
    string.  If the classifier raises on it, the handler raises that error
    with nothing but the spinner shown; if it answers with a result that
    has a label and a score, all four indicators are shown as absent and
    the expander shows an empty text. *)
Theorem document_without_text
        (classifier : Model P) (f : File P) (s : state P) (pdf : Pdf P)
        (pages : list (Page P)) (ts : list (option str))
        (w1 w2 w3 w4 : World P) :
  pdfplumber_open P f (world s) = (Return pdf, w1) ->
  pdf_pages P pdf w1 = (Return pages, w2) ->
  texts_of_pages P pages w2 = (Return ts, w3) ->
  pdf_exit P pdf w3 = (Return tt, w4) ->
  nonempty_texts ts = [] ->
  let answer := fst (model_call P classifier [] candidate_labels w4) in
  last (calls (snd (handle_upload classifier f s))) (CallExit pdf (Return tt)) =
    CallClassifier classifier [] candidate_labels answer /\
  (forall e,
      answer = Raise e ->
      fst (handle_upload classifier f s) = Raise e /\
      ui (snd (handle_upload classifier f s)) =
        ui s ++ [Spinner (lit "Analyzing document...")]) /\
  (forall r l ls c cs,
      answer = Return r -> labels r = l :: ls -> scores r = c :: cs ->
      exists new,
        fst (handle_upload classifier f s) = Return tt /\
        ui (snd (handle_upload classifier f s)) = ui s ++ new /\
        filter is_write new =
          [ Write (CROSS_MARK ++ lit " Contains Abstract");
            Write (CROSS_MARK ++ lit " Contains References");
            Write (CROSS_MARK ++ lit " Contains DOI");
            Write (CROSS_MARK ++ lit " Mentions Journal/Volume") ] /\
        filter is_expander new =
          [ Expander (MAGNIFIER_RIGHT ++ lit " Show Extracted Text") [Text []] ]).
Proof.
  intros Hopen Hpages Hts Hexit Hne answer.
  set (s0 := snd (emit P (Spinner (lit "Analyzing document...")) s)).
  pose proof (extract_text_from_pdf_success f s0 Hopen Hpages Hts Hexit) as Hext.
  rewrite Hne in Hext. change (joined_lines []) with (@nil char) in Hext.
  rewrite firstn_nil in Hext.
  match type of Hext with _ = (_, ?st) => set (s1 := st) in * end.
  pose proof (classify_text_run classifier [] s1) as Hcls.
  change (world s1) with w4 in Hcls. fold answer in Hcls.
  pose proof (handle_upload_cases classifier f s) as Hcases. cbv zeta in Hcases.
  fold s0 in Hcases. rewrite Hext, Hcls in Hcases.
  assert (Hlast : forall x,
             last (calls s1 ++ [CallClassifier classifier [] candidate_labels x])
                  (CallExit pdf (Return tt)) =
             CallClassifier classifier [] candidate_labels x)
    by (intros x; apply last_last).
  destruct answer as [r | e] eqn:Hanswer.
  - destruct (labels r) as [|l ls] eqn:Hl; [|destruct (scores r) as [|c cs] eqn:Hc].
    + rewrite Hcases. cbn [fst snd calls]. split; [apply Hlast|].
      split; [discriminate|]. intros r' l' ls' c' cs' Hr. injection Hr as <-.
      rewrite Hl. discriminate.
    + rewrite Hcases. cbn [fst snd calls]. split; [apply Hlast|].
      split; [discriminate|]. intros r' l' ls' c' cs' Hr. injection Hr as <-.
      rewrite Hc. discriminate.
    + rewrite (handle_upload_run classifier f s Hext Hcls Hl Hc).
      cbn [fst snd calls ui]. split; [apply Hlast|].
      split; [discriminate|]. intros r' l' ls' c' cs' Hr Hl' Hc'.
      injection Hr as <-. eexists.
      split; [reflexivity|]. split; [reflexivity|].
      rewrite firstn_nil. unfold scholarly_indicators.
      destruct (contains (lit "scholarly") l); split; reflexivity.
  - rewrite Hcases. cbn [fst snd calls ui]. split; [apply Hlast|].
    split; [|discriminate].
    intros e' He. injection He as <-. split; reflexivity.
Qed.

End AppExtras.

Lemma ascii_lower_inv (c target : char) :
  ascii_lower c = target -> (97 <= target <= 122)%N ->
  c = target \/ c = (target - 32)%N.
Proof.
  unfold ascii_lower. intros H Hrange.
  destruct (N.leb 65 c && N.leb c 90)%bool eqn:Hup.
  - right. lia.
  - now left.
Qed.

(** X16: on a text of ASCII characters, "Contains DOI" is true exactly when
    the letters d, o, i occur next to one another in that order, each in
    either case. *)
Theorem doi_indicator_on_ascii (U : UnicodeData) (text : str) :
  basic_latin_lowercase U ->
  Forall is_ascii text ->
  lookup (lit "Contains DOI") (scholarly_indicators U text) = Some true <->
  exists pre d o i post,
    text = pre ++ [d; o; i] ++ post /\
    In d (lit "dD") /\ In o (lit "oO") /\ In i (lit "iI").
Proof.
  intros HU Hascii.
  change (lookup (lit "Contains DOI") (scholarly_indicators U text))
    with (Some (contains (lit "doi") (lower U text))).
  split.
  - intros H. injection H as H. apply contains_spec in H.
    unfold lower in H. rewrite (lower_from_ascii [] HU Hascii) in H.
    destruct H as [lpre [lpost H]].
    apply map_eq_app in H as [pre [rest [-> [_ H]]]].
    apply map_eq_app in H as [mid [post [-> [Hmid _]]]].
    destruct mid as [|d [|o [|i [|x mid]]]]; try discriminate.
    injection Hmid as Hd Ho Hi.
    exists pre, d, o, i, post. split; [reflexivity|].
    apply ascii_lower_inv in Hd; [|lia].
    apply ascii_lower_inv in Ho; [|lia].
    apply ascii_lower_inv in Hi; [|lia].
    simpl. intuition.
  - intros [pre [d [o [i [post [-> [Hd [Ho Hi]]]]]]]].
    now rewrite (doi_any_case pre post HU Hd Ho Hi).
Qed.

(** * The further properties on the sample uploads *)

Lemma pdf_closed_once_opened_witness :
  exists mid r,
    calls (snd (extract_text_from_pdf (P:=Sample.platform) Sample.broken Sample.start)) =
      calls Sample.start ++
      CallOpen (P:=Sample.platform) Sample.broken
        (Return (Sample.file_pages Sample.broken))
      :: mid ++ [CallExit (P:=Sample.platform) (Sample.file_pages Sample.broken) r] /\
    Forall (fun c => is_exit c = false) mid /\
    (forall e, r = Raise e ->
       fst (extract_text_from_pdf (P:=Sample.platform) Sample.broken Sample.start)
       = Raise e).
Proof.
  apply (@pdf_closed_once_opened Sample.platform Sample.broken Sample.start
           (Sample.file_pages Sample.broken) 0).
  reflexivity.
Defined.

Lemma every_page_is_read_witness :
  List.length
    (calls (snd (extract_text_from_pdf (P:=Sample.platform)
                   Sample.article Sample.start))) = 7.
Proof.
  pose (ts := [ Some (lit "Abstract. We study Vol. 3 of the Journal."); None;
                Some []; Some (lit "References: DOI 10.1000/1") ]).
  destruct (@every_page_is_read Sample.platform Sample.article Sample.start
              (Sample.file_pages Sample.article) (Sample.file_pages Sample.article)
              ts 0 0 0 0 eq_refl eq_refl eq_refl eq_refl) as [-> _].
  reflexivity.
Defined.

Lemma truncation_keeps_true_indicators_witness :
  exists t,
    fst (extract_text_from_pdf (P:=Sample.platform) Sample.article Sample.start)
      = Return t /\
    forall key,
      lookup key (scholarly_indicators Sample.basic_latin t) = Some true ->
      lookup key
        (scholarly_indicators Sample.basic_latin
           (joined_lines
              [ lit "Abstract. We study Vol. 3 of the Journal.";
                lit "References: DOI 10.1000/1" ])) = Some true.
Proof.
  apply (@truncation_keeps_true_indicators Sample.platform Sample.article
           Sample.start
           (Sample.file_pages Sample.article) (Sample.file_pages Sample.article)
           [ Some (lit "Abstract. We study Vol. 3 of the Journal."); None;
             Some []; Some (lit "References: DOI 10.1000/1") ]
           0 0 0 0); reflexivity.
Defined.

Lemma handler_error_shows_nothing_witness :
  ui (snd (handle_upload (P:=Sample.platform) tt Sample.broken Sample.start)) =
    [Spinner (lit "Analyzing document...")].
Proof.
  apply (@handler_error_shows_nothing Sample.platform tt Sample.broken
           Sample.start Sample.DamagedPage).
  vm_compute. reflexivity.
Defined.

Lemma empty_result_raises_index_error_witness :
  fst (handle_upload (P:=Faulty.no_labels) tt Sample.article
         (@Build_state Faulty.no_labels 0 None [] [])) =
    Raise Sample.ListIndexOutOfRange.
Proof.
  pose (s := @Build_state Faulty.no_labels 0 None [] []).
  pose (s0 := snd (emit Faulty.no_labels (Spinner (lit "Analyzing document...")) s)).
  pose (t := lit "Abstract. We study Vol. 3 of the Journal." ++ [NEWLINE] ++
             lit "References: DOI 10.1000/1" ++ [NEWLINE]).
  pose (s1 := snd (extract_text_from_pdf (P:=Faulty.no_labels) Sample.article s0)).
  pose (r := {| sequence := t; labels := []; scores := @nil N |}).
  pose (s2 := snd (classify_text (P:=Faulty.no_labels) tt t s1)).
  assert (Hext : extract_text_from_pdf (P:=Faulty.no_labels) Sample.article s0
                 = (Return t, s1)) by (vm_compute; reflexivity).
  assert (Hcls : classify_text (P:=Faulty.no_labels) tt t s1 = (Return r, s2))
    by (vm_compute; reflexivity).
  fold s.
  rewrite (@empty_result_raises_index_error Faulty.no_labels tt Sample.article
             s s1 s2 t r Hext Hcls (or_introl eq_refl)).
  reflexivity.
Defined.

Lemma unreadable_upload_witness :
  handle_upload (P:=Sample.platform) tt Sample.not_a_pdf Sample.start =
    (Raise Sample.NotAPdf,
     @Build_state Sample.platform 0 None
       [CallOpen (P:=Sample.platform) Sample.not_a_pdf (Raise Sample.NotAPdf)]
       [Spinner (lit "Analyzing document...")]).
Proof.
  apply (@unreadable_upload Sample.platform tt Sample.not_a_pdf Sample.start
           Sample.NotAPdf 0).
  reflexivity.
Defined.


Lemma verdict_matches_top_candidate_witness :
  exists new,
    ui (snd (handle_upload (P:=Sample.platform) tt Sample.article Sample.start)) =
      ui Sample.start ++ new /\
    filter is_verdict new = [Success (scholarly_message Sample.platform 9150%N)].
Proof.
  pose (s0 := snd (emit Sample.platform (Spinner (lit "Analyzing document..."))
                     Sample.start)).
  pose (t := lit "Abstract. We study Vol. 3 of the Journal." ++ [NEWLINE] ++
             lit "References: DOI 10.1000/1" ++ [NEWLINE]).
  pose (s1 := snd (extract_text_from_pdf (P:=Sample.platform) Sample.article s0)).
  pose (r := {| sequence := t; labels := candidate_labels;
                scores := [9150%N; 850%N] |}).
  pose (s2 := snd (classify_text (P:=Sample.platform) tt t s1)).
  assert (Hext : extract_text_from_pdf (P:=Sample.platform) Sample.article s0
                 = (Return t, s1)) by (vm_compute; reflexivity).
  assert (Hcls : classify_text (P:=Sample.platform) tt t s1 = (Return r, s2))
    by (vm_compute; reflexivity).
  destruct (@verdict_matches_top_candidate Sample.platform tt Sample.article
              Sample.start s1 s2 t r
              (lit "scholarly peer-reviewed academic article")
              [lit "popular or non-academic article"] 9150%N [850%N]
              Hext Hcls eq_refl eq_refl (or_introl eq_refl))
    as [new [Hui [Hscholarly _]]].
  exists new. split; [exact Hui | exact (Hscholarly eq_refl)].
Defined.

Lemma shown_text_length_witness :
  exists shown,
    last (ui (snd (handle_upload (P:=Sample.platform) tt Sample.article Sample.start)))
         (Title []) =
      Expander (MAGNIFIER_RIGHT ++ lit " Show Extracted Text") [Text shown] /\
    List.length shown = 68.
Proof.
  pose (s' := snd (handle_upload (P:=Sample.platform) tt Sample.article Sample.start)).
  pose (s0 := snd (emit Sample.platform (Spinner (lit "Analyzing document..."))
                     Sample.start)).
  pose (t := lit "Abstract. We study Vol. 3 of the Journal." ++ [NEWLINE] ++
             lit "References: DOI 10.1000/1" ++ [NEWLINE]).
  pose (s1 := snd (extract_text_from_pdf (P:=Sample.platform) Sample.article s0)).
  assert (Hrun : handle_upload (P:=Sample.platform) tt Sample.article Sample.start
                 = (Return tt, s')) by (vm_compute; reflexivity).
  assert (Hext : extract_text_from_pdf (P:=Sample.platform) Sample.article s0
                 = (Return t, s1)) by (vm_compute; reflexivity).
  destruct (@shown_text_length Sample.platform tt Sample.article Sample.start
              s' s1 t Hrun Hext) as [shown [Hlast [Hlen _]]].
  exists shown. split; [exact Hlast|]. rewrite Hlen. reflexivity.
Defined.

Lemma model_failure_shows_nothing_witness :
  (let s := @Build_state Faulty.offline 0 None [] [] in
   fst (app (P:=Faulty.offline) (@uncached Faulty.offline) (Some Sample.article) s) =
     Raise Sample.ModelUnavailable /\
   ui (snd (app (P:=Faulty.offline) (@uncached Faulty.offline)
              (Some Sample.article) s)) = []) /\
  List.length
    (ui (snd (app (P:=Sample.platform) (@uncached Sample.platform)
                (Some Sample.broken) Sample.start))) = 4.
Proof.
  split.
  - intros s.
    rewrite (proj1 (@model_failure_shows_nothing Faulty.offline
                      (@uncached Faulty.offline) (Some Sample.article) s
                      (snd (load_classifier (P:=Faulty.offline)
                              (@uncached Faulty.offline) s)))
               Sample.ModelUnavailable eq_refl).
    split; reflexivity.
  - assert (Hraise : fst (app (P:=Sample.platform) (@uncached Sample.platform)
                            (Some Sample.broken) Sample.start) =
                     Raise Sample.DamagedPage) by (vm_compute; reflexivity).
    rewrite (proj2 (@model_failure_shows_nothing Sample.platform
                      (@uncached Sample.platform) (Some Sample.broken) Sample.start
                      (snd (load_classifier (P:=Sample.platform)
                              (@uncached Sample.platform) Sample.start)))
               tt Sample.DamagedPage eq_refl Hraise).
    reflexivity.
Defined.

Lemma no_upload_no_analysis_witness :
  List.length
    (calls (snd (app (P:=Sample.platform) (@uncached Sample.platform) None
                   Sample.start))) = 1 /\
  List.length
    (ui (snd (app (P:=Sample.platform) (@uncached Sample.platform) None
                Sample.start))) = 3.
Proof.
  rewrite (@no_upload_no_analysis Sample.platform (@uncached Sample.platform)
             Sample.start
             (snd (load_classifier (P:=Sample.platform) (@uncached Sample.platform)
                     Sample.start))
             tt eq_refl).
  split; reflexivity.
Defined.

Lemma document_without_text_witness :
  exists new,
    fst (handle_upload (P:=Sample.platform) tt Faulty.scan Sample.start) = Return tt /\
    ui (snd (handle_upload (P:=Sample.platform) tt Faulty.scan Sample.start)) =
      ui Sample.start ++ new /\
    filter is_write new =
      [ Write (CROSS_MARK ++ lit " Contains Abstract");
        Write (CROSS_MARK ++ lit " Contains References");
        Write (CROSS_MARK ++ lit " Contains DOI");
        Write (CROSS_MARK ++ lit " Mentions Journal/Volume") ].
Proof.
  destruct (@document_without_text Sample.platform tt Faulty.scan Sample.start
              (Sample.file_pages Faulty.scan) (Sample.file_pages Faulty.scan)
              [None; Some []] 0 0 0 0
              eq_refl eq_refl eq_refl eq_refl eq_refl)
    as [_ [_ Hanswer]].
  destruct (Hanswer {| sequence := []; labels := rev candidate_labels;
                       scores := [9150%N; 850%N] |}
                    (lit "popular or non-academic article")
                    [lit "scholarly peer-reviewed academic article"]
                    9150%N [850%N] eq_refl eq_refl eq_refl)
    as [new [Hfst [Hui [Hwrite _]]]].
  exists new. repeat split; assumption.
Defined.

Lemma doi_indicator_on_ascii_witness :
  basic_latin_lowercase Sample.basic_latin /\
  Forall is_ascii (lit "see DoI:10") /\
  lookup (lit "Contains DOI")
    (scholarly_indicators Sample.basic_latin (lit "see DoI:10")) = Some true.
Proof.
  assert (HU : basic_latin_lowercase Sample.basic_latin)
    by (intros c _; reflexivity).
  assert (Hascii : Forall is_ascii (lit "see DoI:10"))
    by (apply is_ascii_check; reflexivity).
  split; [exact HU|]. split; [exact Hascii|].
  apply (proj2 (@doi_indicator_on_ascii Sample.basic_latin (lit "see DoI:10")
                  HU Hascii)).
  exists (lit "see "), 68%N, 111%N, 73%N, (lit ":10").
  simpl. tauto.
Defined.
